(** * openairplay: the settings window (openairplay/gui_main.py)

    A shallow embedding of the [Window] class of [gui_main.py]: the device
    list kept in step with the discovery signals, the start of a mirroring
    client for the selected list entry, the two persisted preferences and
    the quit path.  Python attributes become fields of a state record,
    methods become computations in a state-and-exception monad, and every
    externally visible effect (log lines, prints, settings accesses,
    scheduling on the asyncio loop) is appended to a trace in program
    order.  Layout, icons and the notification test form have no influence
    on the methods studied here and are left out. *)

From Stdlib Require Import ZArith.
From stdpp Require Import base strings list gmap.

Open Scope string_scope.
Open Scope Z_scope.
Open Scope list_scope.

(** ** Data model *)

(** [AIRPLAY_NO_DISPLAY_NAME], line 22. *)
Definition AIRPLAY_NO_DISPLAY_NAME : string := "No display.".

(** Modelled from the spec: the class [AirplayReceiver]
    ([receiver_device.py]) is not among the sources.  [name] and
    [list_entry_name] are the two attributes [gui_main.py] reads;
    [identity] is the stable key of the spec's data model. *)
Record AirplayReceiver : Type := mkReceiver {
  identity : string;
  name : string;
  list_entry_name : string
}.

Global Instance AirplayReceiver_eq_dec : EqDecision AirplayReceiver.
Proof. solve_decision. Defined.

(** A [QListWidgetItem]: Python and Qt compare items by object identity,
    which [item_ptr] stands for; [text] is the displayed string and [data]
    the value stored under [Qt.ItemDataRole.UserRole]. *)
Record QListWidgetItem : Type := mkItem {
  item_ptr : nat;
  text : string;
  data : option AirplayReceiver
}.

Global Instance QListWidgetItem_eq_dec : EqDecision QListWidgetItem.
Proof. solve_decision. Defined.

(** The part of the [QListWidget] interface the window uses.  Rows are
    Qt [int]s: [row] answers -1 for an item that is not in the list,
    [item] and [takeItem] answer nothing for a row out of range. *)
Module QListWidget.

Definition addItem (l : list QListWidgetItem) (it : QListWidgetItem)
  : list QListWidgetItem := l ++ [it].

(** [findItems(text, MatchExactly)]: the items whose text equals [s],
    in list order. *)
Definition findItems (l : list QListWidgetItem) (s : string)
  : list QListWidgetItem := filter (λ it, text it = s) l.

Definition row (l : list QListWidgetItem) (x : QListWidgetItem) : Z :=
  match list_find (λ it, item_ptr it = item_ptr x) l with
  | Some (i, _) => Z.of_nat i
  | None => -1
  end.

Definition item (l : list QListWidgetItem) (r : Z) : option QListWidgetItem :=
  if decide (0 ≤ r) then l !! Z.to_nat r else None.

Definition takeItem (l : list QListWidgetItem) (r : Z)
  : list QListWidgetItem :=
  if decide (0 ≤ r < Z.of_nat (length l)) then delete (Z.to_nat r) l else l.

End QListWidget.

(** Modelled from the spec: [OpenAirPlayMirroringClient] ([mirroring.py])
    is not among the sources.  The constructor receives whatever the list
    item stored as its data; [client_ptr] is the object's identity. *)
Record OpenAirPlayMirroringClient : Type := mkClient {
  client_ptr : nat;
  target : option AirplayReceiver
}.

Global Instance OpenAirPlayMirroringClient_eq_dec
  : EqDecision OpenAirPlayMirroringClient.
Proof. solve_decision. Defined.

(** Coroutine objects handed to the asyncio loop.  [gui_main.py] only
    creates and schedules them; their bodies live in the absent modules. *)
Inductive Coroutine : Type :=
| ClientStart (c : OpenAirPlayMirroringClient)
| ListenerQuit
| DiscoveryScan.

Global Instance Coroutine_eq_dec : EqDecision Coroutine.
Proof. solve_decision. Defined.

Definition is_ClientStart (c : Coroutine) : bool :=
  match c with ClientStart _ => true | _ => false end.

(** Modelled from the spec: [discovery.AirplayServiceListener] is not
    among the sources; per the spec, [start()] begins a long-running
    discovery task on the shared scheduler, and [quit()] is a coroutine. *)
Record AirplayServiceListener : Type := mkListener {
  started : bool
}.

Inductive Level : Type := DEBUG | INFO | WARN | ERROR.

(** Effects visible outside the window object, in program order. *)
Inductive Event : Type :=
| Log (lvl : Level) (msg : string)
| Print (msg : string)
| SettingsValue (key : string) (v : bool)
| SettingsSetValue (key : string) (v : bool)
| EnsureFuture (c : Coroutine)
| LoopStop
| MessageBox (title : string)
| CloseEventIgnored.

Global Instance Level_eq_dec : EqDecision Level.
Proof. solve_decision. Defined.
Global Instance Event_eq_dec : EqDecision Event.
Proof. solve_decision. Defined.

(** The window object together with the asyncio loop it schedules on.
    An attribute that may be missing ([settings] after [del],
    [service_listener] when construction found no loop, the two
    [_active_mirroring] attributes before the first start) is an option. *)
Record State : Type := mkState {
  settings : option (gmap string bool);
  showIconCheckBox : bool;
  systrayClosePromptCheckBox : bool;
  trayIcon : bool;
  visible : bool;
  deviceSelectList : list QListWidgetItem;
  service_listener : option AirplayServiceListener;
  _active_mirroring_client : option OpenAirPlayMirroringClient;
  _active_mirroring : option Coroutine;
  loop_tasks : list Coroutine;
  loop_stopping : bool;
  next_ptr : nat;
  trace : list Event
}.

Definition set_settings (v : option (gmap string bool)) (s : State) : State :=
  mkState v (showIconCheckBox s) (systrayClosePromptCheckBox s) (trayIcon s)
    (visible s) (deviceSelectList s) (service_listener s)
    (_active_mirroring_client s) (_active_mirroring s) (loop_tasks s)
    (loop_stopping s) (next_ptr s) (trace s).

Definition set_showIconCheckBox (v : bool) (s : State) : State :=
  mkState (settings s) v (systrayClosePromptCheckBox s) (trayIcon s)
    (visible s) (deviceSelectList s) (service_listener s)
    (_active_mirroring_client s) (_active_mirroring s) (loop_tasks s)
    (loop_stopping s) (next_ptr s) (trace s).

Definition set_systrayClosePromptCheckBox (v : bool) (s : State) : State :=
  mkState (settings s) (showIconCheckBox s) v (trayIcon s)
    (visible s) (deviceSelectList s) (service_listener s)
    (_active_mirroring_client s) (_active_mirroring s) (loop_tasks s)
    (loop_stopping s) (next_ptr s) (trace s).

Definition set_trayIcon (v : bool) (s : State) : State :=
  mkState (settings s) (showIconCheckBox s) (systrayClosePromptCheckBox s) v
    (visible s) (deviceSelectList s) (service_listener s)
    (_active_mirroring_client s) (_active_mirroring s) (loop_tasks s)
    (loop_stopping s) (next_ptr s) (trace s).

Definition set_visible (v : bool) (s : State) : State :=
  mkState (settings s) (showIconCheckBox s) (systrayClosePromptCheckBox s)
    (trayIcon s) v (deviceSelectList s) (service_listener s)
    (_active_mirroring_client s) (_active_mirroring s) (loop_tasks s)
    (loop_stopping s) (next_ptr s) (trace s).

Definition set_deviceSelectList (v : list QListWidgetItem) (s : State)
  : State :=
  mkState (settings s) (showIconCheckBox s) (systrayClosePromptCheckBox s)
    (trayIcon s) (visible s) v (service_listener s)
    (_active_mirroring_client s) (_active_mirroring s) (loop_tasks s)
    (loop_stopping s) (next_ptr s) (trace s).

Definition set_service_listener (v : option AirplayServiceListener)
  (s : State) : State :=
  mkState (settings s) (showIconCheckBox s) (systrayClosePromptCheckBox s)
    (trayIcon s) (visible s) (deviceSelectList s) v
    (_active_mirroring_client s) (_active_mirroring s) (loop_tasks s)
    (loop_stopping s) (next_ptr s) (trace s).

Definition set_active_mirroring_client
  (v : option OpenAirPlayMirroringClient) (s : State) : State :=
  mkState (settings s) (showIconCheckBox s) (systrayClosePromptCheckBox s)
    (trayIcon s) (visible s) (deviceSelectList s) (service_listener s)
    v (_active_mirroring s) (loop_tasks s)
    (loop_stopping s) (next_ptr s) (trace s).

Definition set_active_mirroring (v : option Coroutine) (s : State) : State :=
  mkState (settings s) (showIconCheckBox s) (systrayClosePromptCheckBox s)
    (trayIcon s) (visible s) (deviceSelectList s) (service_listener s)
    (_active_mirroring_client s) v (loop_tasks s)
    (loop_stopping s) (next_ptr s) (trace s).

Definition set_loop_tasks (v : list Coroutine) (s : State) : State :=
  mkState (settings s) (showIconCheckBox s) (systrayClosePromptCheckBox s)
    (trayIcon s) (visible s) (deviceSelectList s) (service_listener s)
    (_active_mirroring_client s) (_active_mirroring s) v
    (loop_stopping s) (next_ptr s) (trace s).

Definition set_loop_stopping (v : bool) (s : State) : State :=
  mkState (settings s) (showIconCheckBox s) (systrayClosePromptCheckBox s)
    (trayIcon s) (visible s) (deviceSelectList s) (service_listener s)
    (_active_mirroring_client s) (_active_mirroring s) (loop_tasks s)
    v (next_ptr s) (trace s).

Definition set_next_ptr (v : nat) (s : State) : State :=
  mkState (settings s) (showIconCheckBox s) (systrayClosePromptCheckBox s)
    (trayIcon s) (visible s) (deviceSelectList s) (service_listener s)
    (_active_mirroring_client s) (_active_mirroring s) (loop_tasks s)
    (loop_stopping s) v (trace s).

Definition set_trace (v : list Event) (s : State) : State :=
  mkState (settings s) (showIconCheckBox s) (systrayClosePromptCheckBox s)
    (trayIcon s) (visible s) (deviceSelectList s) (service_listener s)
    (_active_mirroring_client s) (_active_mirroring s) (loop_tasks s)
    (loop_stopping s) (next_ptr s) v.

(** ** The monad of methods: state plus Python exceptions *)

Inductive exn : Type :=
| NotImplementedError (msg : string)
| AttributeError (attr : string)
| SystemExit (code : Z).

Inductive result (A : Type) : Type :=
| Ok (a : A)
| Raise (e : exn).
Arguments Ok {A} a.
Arguments Raise {A} e.

Definition M (A : Type) : Type := State → result A * State.

Global Instance M_ret : MRet M := λ A a s, (Ok a, s).

Global Instance M_bind : MBind M := λ A B f m s,
  match m s with
  | (Ok a, s') => f a s'
  | (Raise e, s') => (Raise e, s')
  end.

Definition raise {A : Type} (e : exn) : M A := λ s, (Raise e, s).
Definition get {A : Type} (f : State → A) : M A := λ s, (Ok (f s), s).
Definition modify (f : State → State) : M unit := λ s, (Ok (), f s).

(** The state a computation leaves, and whether it returned normally. *)
Definition exec {A : Type} (m : M A) (s : State) : State := (m s).2.
Definition outcome {A : Type} (m : M A) (s : State) : result A := (m s).1.

(** [for x in xs: body x]. *)
Fixpoint for_each {A : Type} (xs : list A) (body : A → M unit) : M unit :=
  match xs with
  | [] => mret ()
  | x :: xs' => body x ;; for_each xs' body
  end.

(** *** Primitive effects *)

Definition emit (e : Event) : M unit :=
  modify (λ s, set_trace (trace s ++ [e]) s).

Definition log (lvl : Level) (msg : string) : M unit := emit (Log lvl msg).
Definition print (msg : string) : M unit := emit (Print msg).

(** Python's [str] on a [bool]. *)
Definition str (b : bool) : string := if b then "True" else "False".

(** A fresh object identity. *)
Definition alloc : M nat := λ s, (Ok (next_ptr s), set_next_ptr (S (next_ptr s)) s).

(** [self.settings], an [AttributeError] once the attribute is deleted. *)
Definition self_settings : M (gmap string bool) := λ s,
  match settings s with
  | Some q => (Ok q, s)
  | None => (Raise (AttributeError "settings"), s)
  end.

(** [self.settings.value(key, type=bool)]: a key that was never written
    reads as [False]. *)
Definition settings_value (key : string) : M bool :=
  q ← self_settings;
  let v := default false (q !! key) in
  emit (SettingsValue key v) ;;
  mret v.

(** [self.settings.setValue(key, v)]. *)
Definition settings_setValue (key : string) (v : bool) : M unit :=
  q ← self_settings;
  modify (set_settings (Some (<[key := v]> q))) ;;
  emit (SettingsSetValue key v).

(** [asyncio.ensure_future(coro)]: the coroutine becomes a pending task
    of the loop and the call returns at once with the task. *)
Definition ensure_future (c : Coroutine) : M Coroutine :=
  modify (λ s, set_loop_tasks (loop_tasks s ++ [c]) s) ;;
  emit (EnsureFuture c) ;;
  mret c.

(** [asyncio.get_running_loop().stop()]. *)
Definition loop_stop : M unit :=
  modify (set_loop_stopping true) ;;
  emit LoopStop.

(** ** The methods of [Window] *)

(** [self.deviceSelectList.item(r).<attr>]: Qt answers [None] for a row
    out of range, on which the attribute access fails. *)
Definition item_at (r : Z) (attr : string) : M QListWidgetItem := λ s,
  match QListWidget.item (deviceSelectList s) r with
  | Some it => (Ok it, s)
  | None => (Raise (AttributeError attr), s)
  end.

(** [add_receiver], lines 153-158; connected to [receiver_added]. *)
Definition add_receiver (receiver : AirplayReceiver) : M unit :=
  log DEBUG ("Adding receiver to UI: " +:+ list_entry_name receiver) ;;
  p ← alloc;
  let item := mkItem p (list_entry_name receiver) (Some receiver) in
  modify (λ s, set_deviceSelectList
                 (QListWidget.addItem (deviceSelectList s) item) s) ;;
  log DEBUG ("Added receiver to deviceSelectList: '" +:+ name receiver +:+ "'").

(** [remove_receiver], lines 165-170; connected to [receiver_removed]. *)
Definition remove_receiver (receiver : AirplayReceiver) : M unit :=
  let item_name := list_entry_name receiver in
  items ← get (λ s, QListWidget.findItems (deviceSelectList s) item_name);
  for_each items (λ x,
    modify (λ s, set_deviceSelectList
                   (QListWidget.takeItem (deviceSelectList s)
                      (QListWidget.row (deviceSelectList s) x)) s) ;;
    log DEBUG ("Removed receiver from deviceSelectList: '"
               +:+ name receiver +:+ "'")).

(** [start_mirroring_to_selection], lines 172-192.  The rows of
    [self.deviceSelectList.selectedIndexes()] are the argument. *)
Definition start_mirroring_to_selection (selected : list Z) : M unit :=
  if decide (1 < length selected)%nat then
    log ERROR "Mirroring to more than one display not supported" ;;
    raise (NotImplementedError "Cannot mirror to more than one display.")
  else
    match selected with
    | [] => log WARN "Select a device to mirror to."
    | selected_0 :: _ =>
      it ← item_at selected_0 "text";
      let target_device_name := text it in
      if decide (target_device_name = AIRPLAY_NO_DISPLAY_NAME) then
        log WARN "TODO: no display -> stop"
      else
        it' ← item_at selected_0 "data";
        let target_device := data it' in
        log INFO ("Starting mirroring to " +:+ target_device_name +:+ " ...") ;;
        p ← alloc;
        let client := mkClient p target_device in
        modify (set_active_mirroring_client (Some client)) ;;
        task ← ensure_future (ClientStart client);
        modify (set_active_mirroring (Some task))
    end.

(** [setSystrayClosePrompt], lines 123-125. *)
Definition setSystrayClosePrompt (preference : bool) : M unit :=
  print ("Prompt on close is now " +:+ str preference) ;;
  settings_setValue "promptOnClose_systray" preference.

(** [trayIconVisible], lines 127-129. *)
Definition trayIconVisible (preference : bool) : M unit :=
  modify (set_trayIcon preference) ;;
  settings_setValue "systrayicon" preference.

(** The [toggled] signals of the two check boxes (lines 47-48): the box
    takes its new state and the connected slot receives it. *)
Definition showIconCheckBox_toggled (checked : bool) : M unit :=
  modify (set_showIconCheckBox checked) ;;
  trayIconVisible checked.

Definition systrayClosePromptCheckBox_toggled (checked : bool) : M unit :=
  modify (set_systrayClosePromptCheckBox checked) ;;
  setSystrayClosePrompt checked.

(** [createIconGroupBox], lines 194-217 (the settings part, 203-209). *)
Definition createIconGroupBox : M unit :=
  v ← settings_value "systrayicon";
  modify (set_showIconCheckBox v) ;;
  v' ← settings_value "systrayicon";
  print ("Got systrayicon from settings:" +:+ str v') ;;
  w ← settings_value "promptOnClose_systray";
  modify (set_systrayClosePromptCheckBox w) ;;
  w' ← settings_value "promptOnClose_systray";
  print ("Got promptOnClose_systray from settings:" +:+ str w').

(** [createDeviceListGroupBox], lines 220-234. *)
Definition createDeviceListGroupBox : M unit :=
  modify (set_deviceSelectList []) ;;
  p ← alloc;
  let deviceSelectListNoDisplayItem := mkItem p AIRPLAY_NO_DISPLAY_NAME None in
  modify (λ s, set_deviceSelectList
                 (QListWidget.addItem (deviceSelectList s)
                    deviceSelectListNoDisplayItem) s).

(** [createTrayIcon], lines 301-310: a tray icon starts out hidden. *)
Definition createTrayIcon : M unit := modify (set_trayIcon false).

(** Modelled from the spec: [AirplayServiceListener.start] is not among
    the sources.  It begins the discovery task on the shared loop and is
    a no-op when already running. *)
Definition service_listener_start : M unit :=
  l ← get service_listener;
  match l return M unit with
  | Some (mkListener false) =>
    modify (set_service_listener (Some (mkListener true))) ;;
    modify (λ s, set_loop_tasks (loop_tasks s ++ [DiscoveryScan]) s)
  | _ => mret ()
  end.

(** What [asyncio.get_event_loop()] answers at construction time. *)
Inductive get_event_loop_result : Type :=
| LoopFound (repr : string)
| LoopRuntimeError (e : string).

(** [Window.__init__], lines 26-90.  [persisted] is what
    [QSettings('open-airplay')] finds on disk. *)
Definition __init__ (persisted : gmap string bool)
  (current_loop : get_event_loop_result) : M unit :=
  modify (set_settings (Some persisted)) ;;
  createIconGroupBox ;;
  createDeviceListGroupBox ;;
  createTrayIcon ;;
  modify (set_trayIcon true) ;;
  v ← settings_value "systrayicon";
  (if (v : bool) then mret ()
   else log INFO "The user chose not to show the system tray icon." ;;
        trayIconVisible false) ;;
  log DEBUG "Starting discovery service..." ;;
  match current_loop with
  | LoopFound repr =>
    log DEBUG ("Event loop running: " +:+ repr) ;;
    modify (set_service_listener (Some (mkListener false))) ;;
    service_listener_start
  | LoopRuntimeError e =>
    log ERROR ("Failed to get running event loop: " +:+ e)
  end.

(** [quit], lines 312-317. *)
Definition quit (reason : Z) : M unit :=
  _ ← self_settings;
  modify (set_settings None) ;;
  l ← get service_listener;
  match l with
  | None => raise (AttributeError "service_listener")
  | Some _ =>
    _ ← ensure_future ListenerQuit;
    loop_stop ;;
    raise (SystemExit reason)
  end.

(** [closeEvent], lines 99-115. *)
Definition closeEvent : M unit :=
  tray ← get trayIcon;
  if (tray : bool) then
    prompt ← settings_value "promptOnClose_systray";
    (if (prompt : bool) then
       log INFO "The program is returning to the system tray, user notified." ;;
       emit (MessageBox "Systray")
     else
       log INFO "Program returned to system tray, user chose not to be notified.") ;;
    modify (set_visible false) ;;
    emit CloseEventIgnored ;;
    log INFO "Closing to System Tray"
  else
    log WARN "Tray Icon not visible, quitting." ;;
    quit 0.

(** The object before [__init__] has set any attribute, on a loop with
    nothing scheduled. *)
Definition blank : State :=
  mkState None false false false false [] None None None [] false 0%nat [].

(** [window = Window(); window.show()] of [__main__], lines 331-332. *)
Definition Window (persisted : gmap string bool)
  (current_loop : get_event_loop_result) : State :=
  set_visible true (exec (__init__ persisted current_loop) blank).

(** Delivery of the listener's signals to the connected slots
    (lines 87-88), one after the other in emission order. *)
Inductive DiscoveryEvent : Type :=
| receiver_added (r : AirplayReceiver)
| receiver_removed (r : AirplayReceiver).

Definition deliver (e : DiscoveryEvent) : M unit :=
  match e with
  | receiver_added r => add_receiver r
  | receiver_removed r => remove_receiver r
  end.

Definition deliver_all (es : list DiscoveryEvent) : M unit :=
  for_each es deliver.

(** ** Runs of a constructed window *)

(** What can happen to a constructed window: a discovery signal, a click
    on "Start Mirroring" with some rows selected, a toggle of either
    check box, a close request. *)
Inductive Op : Type :=
| Discovered (e : DiscoveryEvent)
| StartClicked (selected : list Z)
| ShowIconToggled (checked : bool)
| ClosePromptToggled (checked : bool)
| CloseRequested.

Definition step (o : Op) : M unit :=
  match o with
  | Discovered e => deliver e
  | StartClicked selected => start_mirroring_to_selection selected
  | ShowIconToggled checked => showIconCheckBox_toggled checked
  | ClosePromptToggled checked => systrayClosePromptCheckBox_toggled checked
  | CloseRequested => closeEvent
  end.

(** A run carries on from the state an operation left, also when the
    operation raised.  What the loop does with its tasks between two
    operations happens in the absent modules: [loop_tasks] lists what
    was scheduled, in order. *)
Definition run (ops : list Op) (s : State) : State :=
  foldl (λ s o, exec (step o) s) s ops.

(** ** Predicates used in the statements *)

(** Object identities of the list's items are pairwise distinct. *)
Definition ptrs_distinct (l : list QListWidgetItem) : Prop :=
  NoDup (item_ptr <$> l).

(** An item that stores a receiver displays that receiver's list entry
    name. *)
Definition shows_its_receiver (it : QListWidgetItem) : Prop :=
  match data it with
  | Some r => text it = list_entry_name r
  | None => True
  end.

Global Instance shows_its_receiver_dec it : Decision (shows_its_receiver it).
Proof. unfold shows_its_receiver. destruct (data it); apply _. Defined.

(** The invariant of the device list: items are distinct objects
    allocated before [next_ptr], each showing the receiver it stores. *)
Definition wf (s : State) : Prop :=
  ptrs_distinct (deviceSelectList s)
  ∧ Forall (λ it, (item_ptr it < next_ptr s)%nat) (deviceSelectList s)
  ∧ Forall shows_its_receiver (deviceSelectList s).

Global Instance wf_dec s : Decision (wf s).
Proof. unfold wf, ptrs_distinct. apply _. Defined.

(** The loop of [remove_receiver] on the list alone. *)
Definition take_each (l xs : list QListWidgetItem) : list QListWidgetItem :=
  foldl (λ l x, QListWidget.takeItem l (QListWidget.row l x)) l xs.

(** The two preferences as [QSettings] hands them out at startup. *)
Definition systrayicon_0 (persisted : gmap string bool) : bool :=
  default false (persisted !! "systrayicon").
Definition promptOnClose_0 (persisted : gmap string bool) : bool :=
  default false (persisted !! "promptOnClose_systray").

(** The trace of [Window(...)], written out. *)
Definition startup_trace (persisted : gmap string bool)
  (current_loop : get_event_loop_result) : list Event :=
  [SettingsValue "systrayicon" (systrayicon_0 persisted);
   SettingsValue "systrayicon" (systrayicon_0 persisted);
   Print ("Got systrayicon from settings:" +:+ str (systrayicon_0 persisted));
   SettingsValue "promptOnClose_systray" (promptOnClose_0 persisted);
   SettingsValue "promptOnClose_systray" (promptOnClose_0 persisted);
   Print ("Got promptOnClose_systray from settings:"
          +:+ str (promptOnClose_0 persisted));
   SettingsValue "systrayicon" (systrayicon_0 persisted)]
  ++ (if systrayicon_0 persisted then []
      else [Log INFO "The user chose not to show the system tray icon.";
            SettingsSetValue "systrayicon" false])
  ++ [Log DEBUG "Starting discovery service...";
      match current_loop with
      | LoopFound repr => Log DEBUG ("Event loop running: " +:+ repr)
      | LoopRuntimeError e =>
        Log ERROR ("Failed to get running event loop: " +:+ e)
      end].

(** Settings reads in a trace. *)
Definition is_read_of (key : string) (e : Event) : Prop :=
  match e with SettingsValue k _ => k = key | _ => False end.

Global Instance is_read_of_dec key e : Decision (is_read_of key e).
Proof. destruct e; cbn; apply _. Defined.

Definition reads_of (key : string) (tr : list Event) : nat :=
  length (filter (is_read_of key) tr).

(** The mirroring start tasks among the loop's tasks. *)
Definition mirroring_tasks (s : State) : list Coroutine :=
  filter (λ c, is_ClientStart c = true) (loop_tasks s).

(** ** Scenarios *)

Definition living_room : AirplayReceiver :=
  mkReceiver "living-room._airplay._tcp.local." "Living Room" "Living Room".
Definition bedroom : AirplayReceiver :=
  mkReceiver "bedroom._airplay._tcp.local." "Bedroom" "Bedroom".

(** Two receivers that differ in identity and name and display alike. *)
Definition kitchen_a : AirplayReceiver :=
  mkReceiver "kitchen-a._airplay._tcp.local." "Kitchen A" "Kitchen".
Definition kitchen_b : AirplayReceiver :=
  mkReceiver "kitchen-b._airplay._tcp.local." "Kitchen B" "Kitchen".

(** A receiver that advertises itself under the sentinel's text. *)
Definition no_display_tv : AirplayReceiver :=
  mkReceiver "tv._airplay._tcp.local." "No display." AIRPLAY_NO_DISPLAY_NAME.

Definition the_loop : get_event_loop_result := LoopFound "<QEventLoop>".

(** A fresh installation: nothing persisted yet. *)
Definition fresh : State := Window ∅ the_loop.

(** Rows: 0 the sentinel, 1 the living room, 2 the bedroom. *)
Definition two_receivers : State :=
  run [Discovered (receiver_added living_room);
       Discovered (receiver_added bedroom)] fresh.

(** The user selected row 1 and pressed "Start Mirroring". *)
Definition mirroring : State := run [StartClicked [1]] two_receivers.

Definition living_room_client : OpenAirPlayMirroringClient :=
  mkClient 3 (Some living_room).
Definition bedroom_client : OpenAirPlayMirroringClient :=
  mkClient 4 (Some bedroom).

(** Rows: 0 the sentinel, 1 kitchen A, 2 the living room, 3 kitchen B. *)
Definition two_kitchens : State :=
  run [Discovered (receiver_added kitchen_a);
       Discovered (receiver_added living_room);
       Discovered (receiver_added kitchen_b)] fresh.

(** ** Further predicates on states *)

(** A mirroring client was constructed for a receiver, not for [None]. *)
Definition has_target (c : OpenAirPlayMirroringClient) : Prop :=
  is_Some (target c).

(** Only an item that shows the sentinel's text can be without a stored
    receiver, and every client installed or scheduled has a target. *)
Definition targets_ok (s : State) : Prop :=
  Forall (λ it, data it = None → text it = AIRPLAY_NO_DISPLAY_NAME)
    (deviceSelectList s)
  ∧ (∀ c, _active_mirroring_client s = Some c → has_target c)
  ∧ (∀ c, ClientStart c ∈ loop_tasks s → has_target c).

(** One identity advertised under two names, first "Den", later "Den TV". *)
Definition den_before : AirplayReceiver :=
  mkReceiver "den._airplay._tcp.local." "Den" "Den".
Definition den_renamed : AirplayReceiver :=
  mkReceiver "den._airplay._tcp.local." "Den TV" "Den TV".

(** Rows: 0 the sentinel, 1 the den under its first name. *)
Definition den_listed : State :=
  run [Discovered (receiver_added den_before)] fresh.

(** Rows: 0 the sentinel, 1 the living room, 2 a receiver displayed as
    "No display.". *)
Definition sentinel_and_namesake : State :=
  run [Discovered (receiver_added living_room);
       Discovered (receiver_added no_display_tv)] fresh.

(** The item [createDeviceListGroupBox] puts into the new list. *)
Definition sentinel_item : QListWidgetItem :=
  mkItem 0 AIRPLAY_NO_DISPLAY_NAME None.

(** The operations that cannot take the sentinel entry away: all but a
    [receiver_removed] for a receiver displayed under the sentinel's
    text. *)
Definition keeps_sentinel (o : Op) : Prop :=
  match o with
  | Discovered (receiver_removed r) =>
    list_entry_name r ≠ AIRPLAY_NO_DISPLAY_NAME
  | _ => True
  end.

Global Instance keeps_sentinel_dec o : Decision (keeps_sentinel o).
Proof. destruct o as [[r|r]| | | |]; cbn; apply _. Defined.

(** A window of a user who keeps the tray icon. *)
Definition with_tray_icon : State :=
  Window {["systrayicon" := true]} the_loop.

(** What a read of a preference returns in a state. *)
Definition reads_as (key : string) (s : State) : result bool :=
  outcome (settings_value key) s.

(** The entries of the list that store a given receiver. *)
Definition entries_of (r : AirplayReceiver) (s : State)
  : list QListWidgetItem :=
  filter (λ it, data it = Some r) (deviceSelectList s).

(** ** The icon chooser, the tray icon's picture and the notification test

    These attributes of the window are disjoint from the ones in
    [State]: no method above reads or writes them, and the methods below
    touch nothing of [State].  They are kept in a record of their own. *)

Inductive QIcon : Type :=
| QIcon_null
| QIcon_file (fileName : string).

Inductive MessageIcon : Type := NoIcon | Information | Warning | Critical.

(** [QSystemTrayIcon.ActivationReason]. *)
Inductive ActivationReason : Type :=
| Unknown | Context | DoubleClick | Trigger | MiddleClick.

Global Instance QIcon_eq_dec : EqDecision QIcon.
Proof. solve_decision. Defined.
Global Instance MessageIcon_eq_dec : EqDecision MessageIcon.
Proof. solve_decision. Defined.

(** An entry of a combo box: its icon, its text and its user data. *)
Record QComboBoxItem : Type := mkComboItem {
  icon : QIcon;
  itemText : string;
  userData : option MessageIcon
}.

Global Instance QComboBoxItem_eq_dec : EqDecision QComboBoxItem.
Proof. solve_decision. Defined.

(** The part of [QComboBox] the window uses.  An index out of range
    stands for "no current entry" and is kept as -1; the
    [currentIndexChanged] signal is emitted only when the index really
    changes. *)
Module QComboBox.

Record t : Type := mk {
  items : list QComboBoxItem;
  currentIndex : Z
}.

Definition new : t := mk [] (-1).

Definition count (c : t) : Z := Z.of_nat (length (items c)).

(** The first entry put into an empty box becomes the current one. *)
Definition addItem (c : t) (it : QComboBoxItem) : t :=
  mk (items c ++ [it]) (if decide (items c = []) then 0 else currentIndex c).

Definition item (c : t) (index : Z) : option QComboBoxItem :=
  if decide (0 ≤ index) then items c !! Z.to_nat index else None.

Definition itemIcon (c : t) (index : Z) : QIcon :=
  match item c index with Some it => icon it | None => QIcon_null end.

Definition itemData (c : t) (index : Z) : option MessageIcon :=
  match item c index with Some it => userData it | None => None end.

(** The box after [setCurrentIndex(index)], and the argument of
    [currentIndexChanged] when the signal is emitted. *)
Definition setCurrentIndex (c : t) (index : Z) : t * option Z :=
  let index' := if decide (0 ≤ index < count c) then index else -1 in
  if decide (index' = currentIndex c) then (c, None)
  else (mk (items c) index', Some index').

End QComboBox.

(** The values of a C [int].  A Qt setter called from Python takes its
    integer arguments as C [int]s: PyQt raises [OverflowError] for a
    Python integer that does not fit. *)
Definition c_int (v : Z) : Prop := -2147483648 ≤ v ≤ 2147483647.

(** The argument as the setter receives it; [None]: [OverflowError]. *)
Definition py_int_arg (v : Z) : option Z :=
  if decide (c_int v) then Some v else None.

(** The part of [QSpinBox] the window uses: values are kept within the
    range.  [None]: the call raises [OverflowError] on an argument. *)
Module QSpinBox.

Record t : Type := mk {
  minimum : Z;
  maximum : Z;
  value : Z
}.

(** A new spin box ranges over 0..99 and holds 0. *)
Definition new : t := mk 0 99 0.

Definition bound (lo hi v : Z) : Z := Z.max lo (Z.min hi v).

Definition setRange (sb : t) (lo hi : Z) : option t :=
  lo ← py_int_arg lo;
  hi ← py_int_arg hi;
  let hi' := Z.max lo hi in
  Some (mk lo hi' (bound lo hi' (value sb))).

Definition setValue (sb : t) (v : Z) : option t :=
  v ← py_int_arg v;
  Some (mk (minimum sb) (maximum sb) (bound (minimum sb) (maximum sb) v)).

End QSpinBox.

(** A call of [trayIcon.showMessage(title, body, icon, msecs)]. *)
Record Notification : Type := mkNotification {
  title : string;
  body : string;
  message_icon : MessageIcon;
  msecs : Z
}.

Record Form : Type := mkForm {
  iconComboBox : QComboBox.t;
  typeComboBox : QComboBox.t;
  durationSpinBox : QSpinBox.t;
  titleEdit : string;
  bodyEdit : string;
  trayIcon_icon : QIcon;
  windowIcon : QIcon;
  notifications : list Notification
}.

(** [setIcon], lines 117-121. *)
Definition setIcon (index : Z) (f : Form) : Form :=
  let icon := QComboBox.itemIcon (iconComboBox f) index in
  mkForm (iconComboBox f) (typeComboBox f) (durationSpinBox f) (titleEdit f)
    (bodyEdit f) icon icon (notifications f).

(** [self.iconComboBox.setCurrentIndex(index)] on the constructed
    window, where [currentIndexChanged] is connected to [setIcon]
    (line 49). *)
Definition iconComboBox_setCurrentIndex (index : Z) (f : Form) : Form :=
  let '(box, signal) := QComboBox.setCurrentIndex (iconComboBox f) index in
  let f' := mkForm box (typeComboBox f) (durationSpinBox f) (titleEdit f)
              (bodyEdit f) (trayIcon_icon f) (windowIcon f) (notifications f) in
  match signal with
  | Some index' => setIcon index' f'
  | None => f'
  end.

(** [showMessage], lines 140-146.  [None]: [MessageIcon(...)] raises,
    the current entry of the type box carrying no message icon. *)
Definition showMessage (f : Form) : option Form :=
  match QComboBox.itemData (typeComboBox f)
          (QComboBox.currentIndex (typeComboBox f)) with
  | Some icon =>
    Some (mkForm (iconComboBox f) (typeComboBox f) (durationSpinBox f)
            (titleEdit f) (bodyEdit f) (trayIcon_icon f) (windowIcon f)
            (notifications f ++
               [mkNotification (titleEdit f) (bodyEdit f) icon
                  (QSpinBox.value (durationSpinBox f) * 1000)]))
  | None => None
  end.

(** [iconActivated], lines 131-138.  [None]: the method raises, on the
    modulo by a count of zero or inside [showMessage]. *)
Definition iconActivated (reason : ActivationReason) (f : Form)
  : option Form :=
  match reason with
  | Trigger | DoubleClick =>
    if decide (QComboBox.count (iconComboBox f) = 0) then None
    else Some (iconComboBox_setCurrentIndex
                 ((QComboBox.currentIndex (iconComboBox f) + 1)
                  `mod` QComboBox.count (iconComboBox f)) f)
  | MiddleClick => showMessage f
  | _ => Some f
  end.

Definition Airplay_Light : QIcon := QIcon_file "images/Airplay-Light".
Definition Airplay_Dark : QIcon := QIcon_file "images/Airplay-Dark".

(** The icon chooser of [createIconGroupBox], lines 199-201. *)
Definition createIconGroupBox_iconComboBox : QComboBox.t :=
  QComboBox.addItem
    (QComboBox.addItem QComboBox.new
       (mkComboItem Airplay_Light "Black Icon" None))
    (mkComboItem Airplay_Dark "White Icon" None).

(** The type box of [createMessageGroupBox], lines 241-252; no slot is
    connected to its signal. *)
Definition createMessageGroupBox_typeComboBox : QComboBox.t :=
  (QComboBox.setCurrentIndex
     (QComboBox.addItem
        (QComboBox.addItem
           (QComboBox.addItem
              (QComboBox.addItem QComboBox.new
                 (mkComboItem QIcon_null "None" (Some NoIcon)))
              (mkComboItem QIcon_null "Information" (Some Information)))
           (mkComboItem QIcon_null "Warning" (Some Warning)))
        (mkComboItem QIcon_null "Critical" (Some Critical)))
     1).1.

(** The two setter calls on the spin box of [createMessageGroupBox],
    lines 257-259. *)
Definition createMessageGroupBox_setRange_setValue : option QSpinBox.t :=
  sb ← QSpinBox.setRange QSpinBox.new 2 15;
  QSpinBox.setValue sb 5.

(** The spin box of [createMessageGroupBox], lines 256-259.  Its
    literal arguments fit a C [int], so neither setter raises
    ([durationSpinBox_created]) and the box of the two calls is there. *)
Definition createMessageGroupBox_durationSpinBox : QSpinBox.t :=
  default QSpinBox.new createMessageGroupBox_setRange_setValue.

(** The form as [__init__] leaves it: the group boxes are created, the
    tray icon is created without a picture (lines 309-310), the signals
    are connected, and line 61 selects entry 1 of the icon chooser. *)
Definition Form_init : Form :=
  iconComboBox_setCurrentIndex 1
    (mkForm createIconGroupBox_iconComboBox createMessageGroupBox_typeComboBox
       createMessageGroupBox_durationSpinBox
       "Cannot connect to network"
       "Don't believe me. Honestly, I don't have a clue."
       QIcon_null QIcon_null []).

(** What can be done to the form: an activation of the tray icon, the
    setters [iconComboBox.setCurrentIndex(index)],
    [typeComboBox.setCurrentIndex(index)] and
    [durationSpinBox.setValue(v)], new texts in the two edits, a click
    on "Show Message".  The setters raise [OverflowError] on an argument
    that is no C [int]; the two boxes offer their entries only, so a
    chosen index is meant to be in range ([FormOp_valid]). *)
Inductive FormOp : Type :=
| TrayActivated (reason : ActivationReason)
| IconChosen (index : Z)
| TypeChosen (index : Z)
| DurationEdited (v : Z)
| TitleEdited (text : string)
| BodyEdited (text : string)
| ShowMessageClicked.

Definition form_step (o : FormOp) (f : Form) : option Form :=
  match o with
  | TrayActivated reason => iconActivated reason f
  | IconChosen index =>
    index ← py_int_arg index;
    Some (iconComboBox_setCurrentIndex index f)
  | TypeChosen index =>
    index ← py_int_arg index;
    Some (mkForm (iconComboBox f)
            (QComboBox.setCurrentIndex (typeComboBox f) index).1
            (durationSpinBox f) (titleEdit f) (bodyEdit f) (trayIcon_icon f)
            (windowIcon f) (notifications f))
  | DurationEdited v =>
    sb ← QSpinBox.setValue (durationSpinBox f) v;
    Some (mkForm (iconComboBox f) (typeComboBox f) sb
            (titleEdit f) (bodyEdit f) (trayIcon_icon f) (windowIcon f)
            (notifications f))
  | TitleEdited text =>
    Some (mkForm (iconComboBox f) (typeComboBox f) (durationSpinBox f)
            text (bodyEdit f) (trayIcon_icon f) (windowIcon f)
            (notifications f))
  | BodyEdited text =>
    Some (mkForm (iconComboBox f) (typeComboBox f) (durationSpinBox f)
            (titleEdit f) text (trayIcon_icon f) (windowIcon f)
            (notifications f))
  | ShowMessageClicked => showMessage f
  end.

(** A run stops with [None] at the first handler that raises. *)
Fixpoint form_run (ops : list FormOp) (f : Form) : option Form :=
  match ops with
  | [] => Some f
  | o :: ops' =>
    match form_step o f with
    | Some f' => form_run ops' f'
    | None => None
    end
  end.

Definition FormOp_valid (o : FormOp) : Prop :=
  match o with
  | IconChosen index => 0 ≤ index < 2
  | TypeChosen index => 0 ≤ index < 4
  | DurationEdited v => c_int v
  | _ => True
  end.

Global Instance FormOp_valid_dec o : Decision (FormOp_valid o).
Proof. destruct o; cbn; unfold c_int; apply _. Defined.

(** The invariant of the form: the choosers hold the entries they were
    created with and have a current entry, the tray icon and the window
    show the picture of the icon chooser's current entry, and the
    duration stays within 2..15. *)
Definition form_inv (f : Form) : Prop :=
  QComboBox.items (iconComboBox f)
  = QComboBox.items createIconGroupBox_iconComboBox
  ∧ 0 ≤ QComboBox.currentIndex (iconComboBox f) < 2
  ∧ trayIcon_icon f
    = QComboBox.itemIcon (iconComboBox f)
        (QComboBox.currentIndex (iconComboBox f))
  ∧ windowIcon f = trayIcon_icon f
  ∧ QComboBox.items (typeComboBox f)
    = QComboBox.items createMessageGroupBox_typeComboBox
  ∧ 0 ≤ QComboBox.currentIndex (typeComboBox f) < 4
  ∧ QSpinBox.minimum (durationSpinBox f) = 2
  ∧ QSpinBox.maximum (durationSpinBox f) = 15
  ∧ 2 ≤ QSpinBox.value (durationSpinBox f) ≤ 15.

Global Instance form_inv_dec f : Decision (form_inv f).
Proof. unfold form_inv. apply _. Defined.

(** Runs the monadic plumbing of a method applied to a state, leaving
    the tests on data ([decide], lookups) for the proof to split on. *)
Ltac run_M :=
  cbv [mbind M_bind mret M_ret modify get raise emit log print alloc
       ensure_future loop_stop self_settings settings_value settings_setValue
       item_at exec outcome fst snd
       set_settings set_showIconCheckBox set_systrayClosePromptCheckBox
       set_trayIcon set_visible set_deviceSelectList set_service_listener
       set_active_mirroring_client set_active_mirroring set_loop_tasks
       set_loop_stopping set_next_ptr set_trace
       settings showIconCheckBox systrayClosePromptCheckBox trayIcon visible
       deviceSelectList service_listener _active_mirroring_client
       _active_mirroring loop_tasks loop_stopping next_ptr trace].

(** * Proofs *)

(** ** The list widget: removing through [row] and [takeItem] *)

Section QListWidget_facts.
Implicit Types (l xs : list QListWidgetItem) (x y : QListWidgetItem).

Lemma ptrs_distinct_cons y l :
  ptrs_distinct (y :: l) ↔ (∀ z, z ∈ l → item_ptr z ≠ item_ptr y) ∧ ptrs_distinct l.
Proof.
  unfold ptrs_distinct. rewrite fmap_cons, NoDup_cons, list_elem_of_fmap.
  split; intros [Hy Hl]; split; try done.
  - intros z Hz Heq. apply Hy. by exists z.
  - intros (z & Heq & Hz). by apply (Hy z).
Qed.

Lemma ptrs_distinct_filter (P : QListWidgetItem → Prop)
    `{!∀ x, Decision (P x)} l :
  ptrs_distinct l → ptrs_distinct (filter P l).
Proof.
  induction l as [|y l IH]; [done|].
  rewrite ptrs_distinct_cons, filter_cons. intros [Hy Hl].
  case_decide; [|by apply IH].
  apply ptrs_distinct_cons. split; [|by apply IH].
  intros z [_ Hz]%list_elem_of_filter. by apply Hy.
Qed.

Lemma ptrs_distinct_inj l x y :
  ptrs_distinct l → x ∈ l → y ∈ l → item_ptr x = item_ptr y → x = y.
Proof.
  induction l as [|z l IH]; [by intros _ ?%elem_of_nil|].
  rewrite ptrs_distinct_cons, !elem_of_cons.
  intros [Hz Hl] [->|Hx] [->|Hy] Heq; try done.
  - by destruct (Hz y Hy).
  - by destruct (Hz x Hx).
  - by apply IH.
Qed.

(** An identity that occurs nowhere in the list has row -1, and taking
    that row leaves the list alone. *)
Lemma row_absent l x :
  (∀ z, z ∈ l → item_ptr z ≠ item_ptr x) → QListWidget.row l x = -1.
Proof.
  intros Hx. unfold QListWidget.row.
  destruct (list_find _ l) as [[i z]|] eqn:Hfind; [|done].
  apply list_find_Some in Hfind as (Hz%list_elem_of_lookup_2 & Heq & _).
  by destruct (Hx z Hz).
Qed.

Lemma takeItem_negative l r : r < 0 → QListWidget.takeItem l r = l.
Proof. intros Hr. unfold QListWidget.takeItem. case_decide; [lia|done]. Qed.

Lemma row_cons_eq y l x :
  item_ptr y = item_ptr x → QListWidget.row (y :: l) x = 0.
Proof.
  intros Heq. unfold QListWidget.row. csimpl.
  by destruct (decide (item_ptr y = item_ptr x)).
Qed.

Lemma row_cons_ne y l x :
  item_ptr y ≠ item_ptr x →
  QListWidget.row (y :: l) x =
    if decide (0 ≤ QListWidget.row l x) then QListWidget.row l x + 1 else -1.
Proof.
  intros Hne. unfold QListWidget.row. csimpl.
  destruct (decide (item_ptr y = item_ptr x)); [done|].
  destruct (list_find _ l) as [[i z]|]; csimpl; try case_decide; lia.
Qed.

Lemma row_lt_length l x : QListWidget.row l x < Z.of_nat (length l).
Proof.
  unfold QListWidget.row.
  destruct (list_find _ l) as [[i z]|] eqn:Hfind; [|lia].
  apply list_find_Some in Hfind as (Hz%lookup_lt_Some & _). lia.
Qed.

Lemma takeItem_cons_succ y l r :
  0 ≤ r → QListWidget.takeItem (y :: l) (r + 1) = y :: QListWidget.takeItem l r.
Proof.
  intros Hr. unfold QListWidget.takeItem. cbn [length].
  replace (Z.to_nat (r + 1)) with (S (Z.to_nat r)) by lia.
  repeat case_decide; try done; lia.
Qed.

(** [takeItem(row(x))] removes exactly the item with [x]'s identity. *)
Lemma takeItem_row l x :
  ptrs_distinct l →
  QListWidget.takeItem l (QListWidget.row l x)
  = filter (λ y, item_ptr y ≠ item_ptr x) l.
Proof.
  induction l as [|y l IH]; [done|].
  rewrite ptrs_distinct_cons. intros [Hy Hl].
  rewrite filter_cons. destruct (decide (item_ptr y = item_ptr x)) as [Heq|Hne].
  - rewrite row_cons_eq by done.
    destruct (decide (item_ptr y ≠ item_ptr x)); [done|].
    unfold QListWidget.takeItem. cbn [length]. rewrite decide_True by lia.
    cbn. symmetry. rewrite <- (IH Hl), row_absent, takeItem_negative; [done|lia|].
    intros z Hz. rewrite <- Heq. by apply Hy.
  - rewrite row_cons_ne by done.
    destruct (decide (item_ptr y ≠ item_ptr x)); [|done].
    rewrite <- (IH Hl).
    case_decide; [by apply takeItem_cons_succ|].
    rewrite !takeItem_negative; [done|lia..].
Qed.

Lemma take_each_filter xs l :
  ptrs_distinct l →
  take_each l xs = filter (λ y, item_ptr y ∉ item_ptr <$> xs) l.
Proof.
  revert l. induction xs as [|x xs IH]; intros l Hl; unfold take_each; cbn.
  - induction l as [|y l IHl]; [done|].
    apply ptrs_distinct_cons in Hl as [_ Hl].
    rewrite filter_cons_True by apply not_elem_of_nil. by rewrite <- IHl.
  - rewrite takeItem_row by done.
    fold (take_each (filter (λ y, item_ptr y ≠ item_ptr x) l) xs).
    rewrite IH by by apply ptrs_distinct_filter.
    rewrite list_filter_filter. apply list_filter_iff.
    intros y. rewrite not_elem_of_cons. tauto.
Qed.

(** With distinct identities, removing the items found by text removes
    the items that carry this text, whatever else they are. *)
Lemma take_each_findItems l s :
  ptrs_distinct l →
  take_each l (QListWidget.findItems l s) = filter (λ y, text y ≠ s) l.
Proof.
  intros Hl. rewrite take_each_filter by done. unfold QListWidget.findItems.
  assert (Hiff : ∀ y, y ∈ l →
            (item_ptr y ∉ item_ptr <$> filter (λ it, text it = s) l) ↔ text y ≠ s).
  { intros y Hy. rewrite list_elem_of_fmap. split.
    - intros Hnot Hs. apply Hnot. exists y. split; [done|].
      by apply list_elem_of_filter.
    - intros Hs (z & Heq & [Hz Hzl]%list_elem_of_filter).
      apply Hs. by rewrite (ptrs_distinct_inj l y z). }
  clear Hl. revert Hiff. generalize (filter (λ it, text it = s) l). intros k.
  induction l as [|y l IH]; intros Hiff; [done|].
  rewrite !filter_cons.
  assert (Hy := Hiff y (list_elem_of_here _ _)).
  rewrite IH by (intros z Hz; apply Hiff; by right).
  apply decide_ext, Hy.
Qed.

End QListWidget_facts.

(** ** What each method does to the state *)

Section method_effects.
Implicit Types (s : State) (r : AirplayReceiver).

(** Sequencing after a computation that returned. *)
Lemma bind_ok {A B : Type} (m : M A) (k : A → M B) s (a : A) s1 :
  m s = (Ok a, s1) → (m ≫= k) s = k a s1.
Proof. intros Hm. unfold mbind, M_bind. by rewrite Hm. Qed.

Lemma exec_ok {A : Type} (m : M A) s (a : A) s1 :
  m s = (Ok a, s1) → exec m s = s1.
Proof. intros Hm. unfold exec. by rewrite Hm. Qed.

Lemma add_receiver_spec r s :
  add_receiver r s =
  (Ok (),
   set_trace (trace s ++
                [Log DEBUG ("Adding receiver to UI: " +:+ list_entry_name r);
                 Log DEBUG ("Added receiver to deviceSelectList: '"
                            +:+ name r +:+ "'")])
     (set_deviceSelectList
        (deviceSelectList s ++
           [mkItem (next_ptr s) (list_entry_name r) (Some r)])
        (set_next_ptr (S (next_ptr s)) s))).
Proof.
  destruct s. unfold add_receiver, QListWidget.addItem. run_M.
  by rewrite <- app_assoc.
Qed.

(** The loop of [remove_receiver]: one [takeItem] and one log line per
    found item, and it cannot raise. *)
Lemma remove_loop_spec r xs s :
  for_each xs (λ x,
    modify (λ s, set_deviceSelectList
                   (QListWidget.takeItem (deviceSelectList s)
                      (QListWidget.row (deviceSelectList s) x)) s) ;;
    log DEBUG ("Removed receiver from deviceSelectList: '"
               +:+ name r +:+ "'")) s =
  (Ok (),
   set_trace (trace s ++
                replicate (length xs)
                  (Log DEBUG ("Removed receiver from deviceSelectList: '"
                              +:+ name r +:+ "'")))
     (set_deviceSelectList (take_each (deviceSelectList s) xs) s)).
Proof.
  revert s. induction xs as [|x xs IH]; intros s.
  - destruct s. cbn [for_each length replicate take_each foldl]. run_M.
    by rewrite app_nil_r.
  - cbn [for_each]. unfold mbind at 1, M_bind at 1.
    unfold mbind at 1, M_bind at 1. cbn [modify log emit].
    rewrite IH. destruct s. cbn [length replicate take_each foldl]. run_M.
    by rewrite <- app_assoc.
Qed.

Lemma remove_receiver_spec r s :
  remove_receiver r s =
  (Ok (),
   set_trace (trace s ++
                replicate
                  (length (QListWidget.findItems (deviceSelectList s)
                             (list_entry_name r)))
                  (Log DEBUG ("Removed receiver from deviceSelectList: '"
                              +:+ name r +:+ "'")))
     (set_deviceSelectList
        (take_each (deviceSelectList s)
           (QListWidget.findItems (deviceSelectList s) (list_entry_name r)))
        s)).
Proof.
  unfold remove_receiver. unfold mbind at 1, M_bind at 1. cbn [get].
  apply remove_loop_spec.
Qed.

(** The five ways through [start_mirroring_to_selection]. *)
Lemma start_many selected s :
  (1 < length selected)%nat →
  start_mirroring_to_selection selected s =
  (Raise (NotImplementedError "Cannot mirror to more than one display."),
   set_trace (trace s ++
                [Log ERROR "Mirroring to more than one display not supported"])
     s).
Proof.
  intros Hlen. unfold start_mirroring_to_selection.
  rewrite decide_True by done. by destruct s.
Qed.

Lemma start_none s :
  start_mirroring_to_selection [] s =
  (Ok (), set_trace (trace s ++ [Log WARN "Select a device to mirror to."]) s).
Proof. by destruct s. Qed.

Lemma start_out_of_range row s :
  QListWidget.item (deviceSelectList s) row = None →
  start_mirroring_to_selection [row] s = (Raise (AttributeError "text"), s).
Proof.
  intros Hrow. unfold start_mirroring_to_selection.
  rewrite decide_False by (cbn; lia). run_M. fold (deviceSelectList s).
  by rewrite Hrow.
Qed.

Lemma start_sentinel row it s :
  QListWidget.item (deviceSelectList s) row = Some it →
  text it = AIRPLAY_NO_DISPLAY_NAME →
  start_mirroring_to_selection [row] s =
  (Ok (), set_trace (trace s ++ [Log WARN "TODO: no display -> stop"]) s).
Proof.
  intros Hrow Htext. unfold start_mirroring_to_selection.
  rewrite decide_False by (cbn; lia). run_M. fold (deviceSelectList s).
  rewrite Hrow, decide_True by done. by destruct s.
Qed.

Lemma start_receiver row it s :
  QListWidget.item (deviceSelectList s) row = Some it →
  text it ≠ AIRPLAY_NO_DISPLAY_NAME →
  let client := mkClient (next_ptr s) (data it) in
  start_mirroring_to_selection [row] s =
  (Ok (),
   set_active_mirroring (Some (ClientStart client))
     (set_trace (trace s ++
                   [Log INFO ("Starting mirroring to " +:+ text it +:+ " ...");
                    EnsureFuture (ClientStart client)])
        (set_loop_tasks (loop_tasks s ++ [ClientStart client])
           (set_active_mirroring_client (Some client)
              (set_next_ptr (S (next_ptr s)) s))))).
Proof.
  intros Hrow Htext client. unfold start_mirroring_to_selection.
  rewrite decide_False by (cbn; lia). run_M. fold (deviceSelectList s).
  rewrite Hrow, decide_False by done.
  destruct s. cbn in Hrow |- *. rewrite Hrow. by rewrite <- app_assoc.
Qed.

(** The two preference slots. *)
Lemma trayIconVisible_spec preference q s :
  settings s = Some q →
  trayIconVisible preference s =
  (Ok (),
   set_trace (trace s ++ [SettingsSetValue "systrayicon" preference])
     (set_settings (Some (<["systrayicon" := preference]> q))
        (set_trayIcon preference s))).
Proof. intros Hq. destruct s. cbn in Hq. subst. reflexivity. Qed.

Lemma setSystrayClosePrompt_spec preference q s :
  settings s = Some q →
  setSystrayClosePrompt preference s =
  (Ok (),
   set_trace (trace s ++
                [Print ("Prompt on close is now " +:+ str preference);
                 SettingsSetValue "promptOnClose_systray" preference])
     (set_settings (Some (<["promptOnClose_systray" := preference]> q)) s)).
Proof.
  intros Hq. destruct s. cbn in Hq. subst.
  unfold setSystrayClosePrompt. run_M. by rewrite <- app_assoc.
Qed.

(** [quit] once the window is fully constructed. *)
Lemma quit_spec reason q l s :
  settings s = Some q →
  service_listener s = Some l →
  quit reason s =
  (Raise (SystemExit reason),
   set_trace (trace s ++ [EnsureFuture ListenerQuit; LoopStop])
     (set_loop_stopping true
        (set_loop_tasks (loop_tasks s ++ [ListenerQuit])
           (set_settings None s)))).
Proof.
  intros Hq Hl. destruct s. cbn in Hq, Hl. subst.
  unfold quit. run_M. by rewrite <- app_assoc.
Qed.

(** Without a listener (construction found no event loop) [quit] fails
    on the attribute after it has dropped the settings, and the loop is
    not asked to stop. *)
Lemma quit_no_listener reason q s :
  settings s = Some q →
  service_listener s = None →
  quit reason s =
  (Raise (AttributeError "service_listener"), set_settings None s).
Proof. intros Hq Hl. destruct s. cbn in Hq, Hl. by subst. Qed.

Lemma quit_no_settings reason s :
  settings s = None →
  quit reason s = (Raise (AttributeError "settings"), s).
Proof. intros Hq. destruct s. cbn in Hq. by subst. Qed.

End method_effects.

(** ** Construction *)

Lemma Window_spec (persisted : gmap string bool)
    (current_loop : get_event_loop_result) :
  Window persisted current_loop =
  mkState
    (Some (if systrayicon_0 persisted then persisted
           else <["systrayicon" := false]> persisted))
    (systrayicon_0 persisted) (promptOnClose_0 persisted)
    (systrayicon_0 persisted) true
    [mkItem 0 AIRPLAY_NO_DISPLAY_NAME None]
    (match current_loop with
     | LoopFound _ => Some (mkListener true)
     | LoopRuntimeError _ => None
     end)
    None None
    (match current_loop with
     | LoopFound _ => [DiscoveryScan]
     | LoopRuntimeError _ => []
     end)
    false 1%nat (startup_trace persisted current_loop).
Proof.
  unfold Window, __init__, createIconGroupBox, createDeviceListGroupBox,
    createTrayIcon, trayIconVisible, service_listener_start, blank,
    QListWidget.addItem, startup_trace.
  run_M. fold (systrayicon_0 persisted) (promptOnClose_0 persisted).
  destruct (systrayicon_0 persisted), current_loop; reflexivity.
Qed.

(** ** The invariant of the device list *)

Section invariant.
Implicit Types (s : State) (r : AirplayReceiver).

Lemma wf_Window persisted current_loop : wf (Window persisted current_loop).
Proof.
  rewrite Window_spec. unfold wf. cbn [deviceSelectList next_ptr].
  split_and!.
  - apply NoDup_singleton.
  - repeat constructor.
  - by repeat constructor.
Qed.

(** A method that leaves the list alone and only allocates keeps [wf]. *)
Lemma wf_frame s s' :
  deviceSelectList s' = deviceSelectList s →
  (next_ptr s ≤ next_ptr s')%nat →
  wf s → wf s'.
Proof.
  intros Hl Hp (? & Halloc & ?). unfold wf. rewrite Hl.
  split_and!; try done.
  eapply Forall_impl; [exact Halloc|]. intros it Hit. cbn in Hit. lia.
Qed.

Lemma Forall_filter_keep (P Q : QListWidgetItem → Prop)
    `{!∀ x, Decision (Q x)} (l : list QListWidgetItem) :
  Forall P l → Forall P (filter Q l).
Proof.
  rewrite !Forall_forall. intros HP x [_ Hx]%list_elem_of_filter. by apply HP.
Qed.

Lemma wf_add_receiver r s : wf s → wf (exec (add_receiver r) s).
Proof.
  intros (Hd & Ha & Ht). unfold exec. rewrite add_receiver_spec.
  destruct s. unfold wf in *. cbn in *. split_and!.
  - unfold ptrs_distinct in *. rewrite fmap_app. apply NoDup_app.
    split_and!; [done| |apply NoDup_singleton].
    intros p (it & -> & Hit)%list_elem_of_fmap Heq%list_elem_of_singleton.
    rewrite Forall_forall in Ha. specialize (Ha it Hit). cbn in Ha, Heq. lia.
  - apply Forall_app. split; [|repeat constructor; cbn; lia].
    eapply Forall_impl; [exact Ha|]. intros it Hit. cbn in *. lia.
  - apply Forall_app. split; [done|]. by repeat constructor.
Qed.

Lemma wf_remove_receiver r s : wf s → wf (exec (remove_receiver r) s).
Proof.
  intros (Hd & Ha & Ht). unfold exec.
  rewrite remove_receiver_spec, take_each_findItems by done.
  destruct s. unfold wf in *. cbn in *. split_and!.
  - by apply ptrs_distinct_filter.
  - by apply Forall_filter_keep.
  - by apply Forall_filter_keep.
Qed.

Lemma start_frame selected s :
  let s' := exec (start_mirroring_to_selection selected) s in
  deviceSelectList s' = deviceSelectList s ∧ (next_ptr s ≤ next_ptr s')%nat.
Proof.
  unfold exec. destruct selected as [|row [|row' rest]].
  - rewrite start_none. by destruct s.
  - destruct (QListWidget.item (deviceSelectList s) row) as [it|] eqn:Hrow.
    + destruct (decide (text it = AIRPLAY_NO_DISPLAY_NAME)).
      * erewrite start_sentinel by done. by destruct s.
      * erewrite start_receiver by done. destruct s; cbn. split; [done|lia].
    + rewrite start_out_of_range by done. done.
  - rewrite start_many by (cbn; lia). by destruct s.
Qed.

Lemma toggle_frame (checked : bool) s :
  deviceSelectList (exec (showIconCheckBox_toggled checked) s) = deviceSelectList s
  ∧ next_ptr (exec (showIconCheckBox_toggled checked) s) = next_ptr s
  ∧ deviceSelectList (exec (systrayClosePromptCheckBox_toggled checked) s)
    = deviceSelectList s
  ∧ next_ptr (exec (systrayClosePromptCheckBox_toggled checked) s) = next_ptr s.
Proof. destruct s as [[q|] ? ? ? ? ? ? ? ? ? ? ? ?]; by cbn. Qed.

Lemma closeEvent_frame s :
  deviceSelectList (exec closeEvent s) = deviceSelectList s
  ∧ next_ptr (exec closeEvent s) = next_ptr s.
Proof.
  destruct s as [[q|] ? ? [|] ? ? [l|] ? ? ? ? ? ?];
    unfold closeEvent, quit; run_M; try done;
    by destruct (default false (q !! "promptOnClose_systray")).
Qed.

Lemma wf_step o s : wf s → wf (exec (step o) s).
Proof.
  destruct o as [[r|r]|selected|checked|checked|]; cbn [step deliver].
  - apply wf_add_receiver.
  - apply wf_remove_receiver.
  - destruct (start_frame selected s). by apply wf_frame.
  - destruct (toggle_frame checked s) as (Hl & Hp & _).
    apply wf_frame; [done|lia].
  - destruct (toggle_frame checked s) as (_ & _ & Hl & Hp).
    apply wf_frame; [done|lia].
  - destruct (closeEvent_frame s) as [Hl Hp]. apply wf_frame; [done|lia].
Qed.

Lemma wf_run ops s : wf s → wf (run ops s).
Proof.
  revert s. induction ops as [|o ops IH]; intros s Hs; [done|].
  cbn. apply IH. by apply wf_step.
Qed.

(** Every state a constructed window can be in satisfies the invariant. *)
Lemma wf_reachable persisted current_loop ops :
  wf (run ops (Window persisted current_loop)).
Proof. apply wf_run, wf_Window. Qed.

End invariant.

(** ** Starting a mirroring session *)

(** C1, as the spec has it, fails: in the state [mirroring] a client for
    the living room exists and its start task is scheduled; a second start
    request with row 2 selected returns normally, stores a new client for
    the bedroom in place of the first and leaves two start tasks on the
    loop. *)
Lemma second_start_while_mirroring_is_accepted :
  _active_mirroring_client mirroring = Some living_room_client
  ∧ mirroring_tasks mirroring = [ClientStart living_room_client]
  ∧ outcome (start_mirroring_to_selection [2]) mirroring = Ok ()
  ∧ _active_mirroring_client (exec (start_mirroring_to_selection [2]) mirroring)
    = Some bedroom_client
  ∧ _active_mirroring_client (exec (start_mirroring_to_selection [2]) mirroring)
    ≠ _active_mirroring_client mirroring
  ∧ mirroring_tasks (exec (start_mirroring_to_selection [2]) mirroring)
    = [ClientStart living_room_client; ClientStart bedroom_client].
Proof. split_and!; by vm_compute. Qed.

(** C1, amended: a start request with one selected row that shows a
    text other than the sentinel's always returns normally, whatever
    client the window already holds: it constructs a new client for the
    data of the selected item, stores it as the active client, appends
    its start task to the loop's tasks (those scheduled before stay) and
    stores that task. *)
Theorem start_always_installs_new_client (s : State) (row : Z)
    (it : QListWidgetItem) :
  QListWidget.item (deviceSelectList s) row = Some it →
  text it ≠ AIRPLAY_NO_DISPLAY_NAME →
  let client := mkClient (next_ptr s) (data it) in
  let s' := exec (start_mirroring_to_selection [row]) s in
  outcome (start_mirroring_to_selection [row]) s = Ok ()
  ∧ _active_mirroring_client s' = Some client
  ∧ _active_mirroring s' = Some (ClientStart client)
  ∧ loop_tasks s' = loop_tasks s ++ [ClientStart client]
  ∧ deviceSelectList s' = deviceSelectList s.
Proof.
  intros Hrow Htext client s'. subst s'. unfold exec, outcome.
  rewrite (start_receiver row it s Hrow Htext). by destruct s.
Qed.

Lemma start_always_installs_new_client_witness :
  QListWidget.item (deviceSelectList mirroring) 2
    = Some (mkItem 2 "Bedroom" (Some bedroom))
  ∧ _active_mirroring_client (exec (start_mirroring_to_selection [2]) mirroring)
    = Some (mkClient (next_ptr mirroring) (Some bedroom)).
Proof.
  split; [by vm_compute|].
  apply (start_always_installs_new_client mirroring 2
           (mkItem 2 "Bedroom" (Some bedroom))); by vm_compute.
Defined.

(** C3, as the spec has it, fails: with rows 1 and 2 selected the method
    does not return; it ends in a [NotImplementedError]. *)
Lemma two_rows_selected_raises :
  outcome (start_mirroring_to_selection [1; 2]) two_receivers
  = Raise (NotImplementedError "Cannot mirror to more than one display.")
  ∧ outcome (start_mirroring_to_selection [1; 2]) two_receivers ≠ Ok ().
Proof. split; by vm_compute. Qed.

(** C3, amended: with more than one row selected the method logs an
    error and raises [NotImplementedError]; apart from the log line the
    state is the one before the call, so no client is constructed and
    nothing is scheduled. *)
Theorem multiple_selection_raises_without_mutation (s : State)
    (selected : list Z) :
  (1 < length selected)%nat →
  start_mirroring_to_selection selected s =
  (Raise (NotImplementedError "Cannot mirror to more than one display."),
   set_trace (trace s ++
                [Log ERROR "Mirroring to more than one display not supported"])
     s).
Proof. apply start_many. Qed.

Lemma multiple_selection_raises_without_mutation_witness :
  (1 < length [1; 2])%nat
  ∧ start_mirroring_to_selection [1; 2] two_receivers =
    (Raise (NotImplementedError "Cannot mirror to more than one display."),
     set_trace (trace two_receivers ++
                  [Log ERROR "Mirroring to more than one display not supported"])
       two_receivers).
Proof.
  split; [cbn; lia|].
  apply (multiple_selection_raises_without_mutation two_receivers [1; 2]).
  cbn; lia.
Defined.

(** C4: the code at the failing input.  While the living room client is
    mirroring, the sentinel row is selected and the button pressed: the
    method logs its TODO and returns; the client, its task and the loop's
    tasks are what they were, nothing is stopped. *)
Theorem sentinel_selected_while_mirroring_stops_nothing :
  let s' := exec (start_mirroring_to_selection [0]) mirroring in
  outcome (start_mirroring_to_selection [0]) mirroring = Ok ()
  ∧ _active_mirroring_client s' = Some living_room_client
  ∧ _active_mirroring s' = Some (ClientStart living_room_client)
  ∧ loop_tasks s' = loop_tasks mirroring
  ∧ mirroring_tasks s' = [ClientStart living_room_client]
  ∧ trace s' = trace mirroring ++ [Log WARN "TODO: no display -> stop"].
Proof. split_and!; by vm_compute. Qed.

(** C5: with no row or with two or more rows selected, no client is
    constructed (nothing is allocated, the client attribute keeps its
    value) and no task is scheduled. *)
Theorem invalid_selection_creates_no_session (s : State)
    (selected : list Z) :
  length selected ≠ 1%nat →
  let s' := exec (start_mirroring_to_selection selected) s in
  _active_mirroring_client s' = _active_mirroring_client s
  ∧ _active_mirroring s' = _active_mirroring s
  ∧ loop_tasks s' = loop_tasks s
  ∧ next_ptr s' = next_ptr s
  ∧ deviceSelectList s' = deviceSelectList s.
Proof.
  intros Hlen s'. subst s'. unfold exec.
  destruct selected as [|row [|row' rest]]; [|done|].
  - rewrite start_none. by destruct s.
  - rewrite start_many by (cbn; lia). by destruct s.
Qed.

Lemma invalid_selection_creates_no_session_witness :
  length ([] : list Z) ≠ 1%nat
  ∧ loop_tasks (exec (start_mirroring_to_selection []) two_receivers)
    = loop_tasks two_receivers.
Proof.
  split; [cbn; lia|].
  apply (invalid_selection_creates_no_session two_receivers []). cbn; lia.
Defined.

(** C10: a discovered receiver whose list entry name is the sentinel's
    text can be selected, and the start request then takes the sentinel
    branch: it logs the TODO and returns with the state otherwise
    untouched, so no client for that receiver is constructed and no task
    is scheduled. *)
Theorem receiver_displayed_as_sentinel_is_not_started :
  ∃ (r : AirplayReceiver) (s : State) (row : Z) (it : QListWidgetItem),
    s = run [Discovered (receiver_added r)] fresh
    ∧ QListWidget.item (deviceSelectList s) row = Some it
    ∧ data it = Some r
    ∧ text it = AIRPLAY_NO_DISPLAY_NAME
    ∧ start_mirroring_to_selection [row] s =
      (Ok (), set_trace (trace s ++ [Log WARN "TODO: no display -> stop"]) s)
    ∧ _active_mirroring_client (exec (start_mirroring_to_selection [row]) s)
      = None
    ∧ mirroring_tasks (exec (start_mirroring_to_selection [row]) s) = [].
Proof.
  exists no_display_tv, (run [Discovered (receiver_added no_display_tv)] fresh),
    1, (mkItem 1 AIRPLAY_NO_DISPLAY_NAME (Some no_display_tv)).
  split_and!; by vm_compute.
Qed.

(** ** Quitting *)




(** ** The device list under discovery signals *)

(** C8: on a list of distinct items, [remove_receiver] cannot raise and
    leaves exactly the items whose text differs from the receiver's list
    entry name; so no item of any receiver displayed under that name
    survives, whichever of them was reported as removed. *)
Theorem remove_receiver_matches_displayed_name (s : State)
    (r : AirplayReceiver) :
  wf s →
  let s' := exec (remove_receiver r) s in
  outcome (remove_receiver r) s = Ok ()
  ∧ deviceSelectList s'
    = filter (λ it, text it ≠ list_entry_name r) (deviceSelectList s)
  ∧ ∀ r' it, list_entry_name r' = list_entry_name r →
             it ∈ deviceSelectList s' → data it ≠ Some r'.
Proof.
  intros (Hd & Ha & Ht) s'. subst s'. unfold exec, outcome.
  rewrite remove_receiver_spec, take_each_findItems by done.
  split_and!; [done|by destruct s|].
  intros r' it Hname Hit Hdata. destruct s; cbn in *.
  apply list_elem_of_filter in Hit as [Htext Hit].
  rewrite Forall_forall in Ht. specialize (Ht it Hit).
  unfold shows_its_receiver in Ht. rewrite Hdata in Ht. congruence.
Qed.

Lemma remove_receiver_matches_displayed_name_witness :
  wf two_kitchens
  ∧ deviceSelectList (exec (remove_receiver kitchen_a) two_kitchens)
    = filter (λ it, text it ≠ list_entry_name kitchen_a)
        (deviceSelectList two_kitchens).
Proof.
  split; [apply (bool_decide_unpack _); by vm_compute|].
  apply (remove_receiver_matches_displayed_name two_kitchens kitchen_a).
  apply (bool_decide_unpack _). by vm_compute.
Defined.

(** Removing kitchen A takes kitchen B's entry along. *)
Example remove_kitchen_a_removes_kitchen_b :
  data <$> deviceSelectList two_kitchens
  = [None; Some kitchen_a; Some living_room; Some kitchen_b]
  ∧ data <$> deviceSelectList (exec (remove_receiver kitchen_a) two_kitchens)
    = [None; Some living_room].
Proof. split; by vm_compute. Qed.

Lemma deliver_add_then_remove (r : AirplayReceiver) (s : State) :
  deliver_all [receiver_added r; receiver_removed r] s
  = remove_receiver r (exec (add_receiver r) s).
Proof.
  unfold deliver_all, exec. cbn [for_each deliver].
  unfold mbind at 1, M_bind at 1. rewrite add_receiver_spec. cbn [snd].
  unfold mbind, M_bind. rewrite remove_receiver_spec. reflexivity.
Qed.

Lemma add_then_remove_spec (s : State) (r : AirplayReceiver) :
  wf s →
  let es := [receiver_added r; receiver_removed r] in
  let s' := exec (deliver_all es) s in
  outcome (deliver_all es) s = Ok ()
  ∧ (∀ it, it ∈ deviceSelectList s' →
           text it ≠ list_entry_name r ∧ data it ≠ Some r)
  ∧ deviceSelectList s'
    = filter (λ it, text it ≠ list_entry_name r) (deviceSelectList s)
  ∧ ∃ n : nat,
      trace s' =
      trace s
      ++ [Log DEBUG ("Adding receiver to UI: " +:+ list_entry_name r);
          Log DEBUG ("Added receiver to deviceSelectList: '" +:+ name r +:+ "'")]
      ++ replicate (S n)
           (Log DEBUG ("Removed receiver from deviceSelectList: '"
                       +:+ name r +:+ "'")).
Proof.
  intros Hs es s'. subst es s'.
  pose proof (wf_add_receiver r s Hs) as (Hd' & Ha' & Ht').
  unfold exec, outcome in *. rewrite deliver_add_then_remove.
  unfold exec. rewrite remove_receiver_spec.
  rewrite take_each_findItems by done.
  rewrite add_receiver_spec in *.
  destruct s. unfold wf in Hs. cbn -[filter replicate] in *.
  rewrite filter_app, filter_cons_False, filter_nil, app_nil_r
    by (cbn; intros Hne; by apply Hne).
  split_and!; [done| |done|].
  - intros it [Htext Hit]%list_elem_of_filter. split; [done|].
    intros Hdata. apply Htext.
    rewrite Forall_forall in Ht'.
    assert (Hshow : shows_its_receiver it) by (apply Ht', elem_of_app; by left).
    unfold shows_its_receiver in Hshow. by rewrite Hdata in Hshow.
  - unfold QListWidget.findItems.
    rewrite filter_app, filter_cons_True, filter_nil by done.
    rewrite length_app. cbn [length].
    exists (length (filter (λ it, text it = list_entry_name r) deviceSelectList0)).
    by rewrite <- app_assoc, Nat.add_1_r.
Qed.

(** C6, as the spec has it, fails: the den is listed under its first
    name; the same identity is then added under the name "Den TV" and
    removed at once.  Removal goes by the displayed name, so the older
    entry of this identity is still in the list. *)
Lemma added_then_removed_keeps_older_entry_of_identity :
  let s' := exec (deliver_all [receiver_added den_renamed;
                               receiver_removed den_renamed]) den_listed in
  identity den_before = identity den_renamed
  ∧ data <$> deviceSelectList den_listed = [None; Some den_before]
  ∧ data <$> deviceSelectList s' = [None; Some den_before]
  ∧ ¬ (∀ it r0, it ∈ deviceSelectList s' → data it = Some r0 →
                identity r0 ≠ identity den_renamed).
Proof.
  split_and!; try by vm_compute.
  intros Hnone.
  apply (Hnone (mkItem 1 "Den" (Some den_before)) den_before);
    [|done|done].
  apply (bool_decide_unpack _). by vm_compute.
Qed.

(** C6, amended: [receiver_added r] directly followed by
    [receiver_removed r], delivered in that order, cannot raise and
    leaves a list with no item that displays [r]'s list entry name or
    stores [r]; the list is without [r]'s identity as well when every
    entry of that identity was displayed under [r]'s list entry name
    before, entries being matched by displayed name.  The trace grows by
    the two log lines of the addition followed by the log lines of the
    removal, at least one. *)
Theorem added_then_removed_leaves_no_entry (s : State) (r : AirplayReceiver) :
  wf s →
  let es := [receiver_added r; receiver_removed r] in
  let s' := exec (deliver_all es) s in
  outcome (deliver_all es) s = Ok ()
  ∧ (∀ it, it ∈ deviceSelectList s' →
           text it ≠ list_entry_name r ∧ data it ≠ Some r)
  ∧ ((∀ it r0, it ∈ deviceSelectList s → data it = Some r0 →
               identity r0 = identity r →
               list_entry_name r0 = list_entry_name r) →
     ∀ it r0, it ∈ deviceSelectList s' → data it = Some r0 →
              identity r0 ≠ identity r)
  ∧ deviceSelectList s'
    = filter (λ it, text it ≠ list_entry_name r) (deviceSelectList s)
  ∧ ∃ n : nat,
      trace s' =
      trace s
      ++ [Log DEBUG ("Adding receiver to UI: " +:+ list_entry_name r);
          Log DEBUG ("Added receiver to deviceSelectList: '" +:+ name r +:+ "'")]
      ++ replicate (S n)
           (Log DEBUG ("Removed receiver from deviceSelectList: '"
                       +:+ name r +:+ "'")).
Proof.
  intros Hs es s'.
  destruct (add_then_remove_spec s r Hs) as (Hok & Hgone & Hlist & Htrace).
  fold es s' in Hok, Hgone, Hlist, Htrace.
  split_and!; [done..| |done|done].
  intros Hsame it r0 Hit Hdata Hid.
  destruct (Hgone it Hit) as [Htext _]. apply Htext.
  rewrite Hlist in Hit. apply list_elem_of_filter in Hit as [_ Hit].
  destruct Hs as (_ & _ & Hshows). rewrite Forall_forall in Hshows.
  specialize (Hshows it Hit). unfold shows_its_receiver in Hshows.
  rewrite Hdata in Hshows. rewrite Hshows. by apply (Hsame it).
Qed.

Lemma added_then_removed_leaves_no_entry_witness :
  wf two_receivers
  ∧ outcome (deliver_all [receiver_added bedroom; receiver_removed bedroom])
      two_receivers = Ok ().
Proof.
  assert (Hwf : wf two_receivers)
    by (apply (bool_decide_unpack _); by vm_compute).
  split; [exact Hwf|].
  exact (proj1 (added_then_removed_leaves_no_entry two_receivers bedroom Hwf)).
Defined.

(** A run of additions appends one item per receiver, in order. *)
Lemma add_all_spec (rs : list AirplayReceiver) (s : State) :
  let s' := exec (deliver_all (receiver_added <$> rs)) s in
  outcome (deliver_all (receiver_added <$> rs)) s = Ok ()
  ∧ ∃ new, deviceSelectList s' = deviceSelectList s ++ new
           ∧ text <$> new = list_entry_name <$> rs
           ∧ data <$> new = Some <$> rs.
Proof.
  revert s. induction rs as [|r rs IH]; intros s; cbn zeta.
  - split; [done|]. exists []. by rewrite app_nil_r.
  - assert (Hstep : deliver_all (receiver_added <$> r :: rs) s
                    = deliver_all (receiver_added <$> rs)
                        (exec (add_receiver r) s)).
    { unfold deliver_all. cbn [fmap list_fmap for_each deliver].
      by rewrite (bind_ok _ _ _ _ _ (add_receiver_spec r s)),
        (exec_ok _ _ _ _ (add_receiver_spec r s)). }
    unfold exec at 1, outcome. rewrite Hstep.
    destruct (IH (exec (add_receiver r) s)) as (Hok & new & Hlist & Htext & Hdata).
    split; [done|].
    exists (mkItem (next_ptr s) (list_entry_name r) (Some r) :: new).
    split_and!.
    + unfold exec in Hlist at 1. rewrite Hlist.
      rewrite (exec_ok _ _ _ _ (add_receiver_spec r s)).
      destruct s; cbn. by rewrite <- app_assoc.
    + cbn. by rewrite <- Htext.
    + cbn. by rewrite <- Hdata.
Qed.

Lemma add_only_run_spec
    (persisted : gmap string bool) (current_loop : get_event_loop_result)
    (rs : list AirplayReceiver) :
  let s := exec (deliver_all (receiver_added <$> rs))
             (Window persisted current_loop) in
  deviceSelectList (Window persisted current_loop)
  = [mkItem 0 AIRPLAY_NO_DISPLAY_NAME None]
  ∧ outcome (deliver_all (receiver_added <$> rs))
      (Window persisted current_loop) = Ok ()
  ∧ QListWidget.item (deviceSelectList s) 0
    = Some (mkItem 0 AIRPLAY_NO_DISPLAY_NAME None)
  ∧ text <$> deviceSelectList s
    = AIRPLAY_NO_DISPLAY_NAME :: (list_entry_name <$> rs)
  ∧ data <$> deviceSelectList s = None :: (Some <$> rs).
Proof.
  cbn zeta.
  destruct (add_all_spec rs (Window persisted current_loop))
    as (Hok & new & Hlist & Htext & Hdata).
  rewrite Hlist, Hok, Window_spec. cbn [deviceSelectList].
  split_and!; try done.
  - cbn. by rewrite Htext.
  - cbn. by rewrite Hdata.
Qed.

(** One operation that keeps the sentinel leaves it at the head. *)
Lemma sentinel_head_step (o : Op) (s : State) :
  wf s → keeps_sentinel o →
  (∃ rest, deviceSelectList s = sentinel_item :: rest) →
  ∃ rest, deviceSelectList (exec (step o) s) = sentinel_item :: rest.
Proof.
  intros Hs Ho [rest Hrest].
  destruct o as [[r|r]|selected|checked|checked|]; cbn [step deliver].
  - unfold exec. rewrite add_receiver_spec. destruct s. cbn in *.
    rewrite Hrest. by eexists.
  - destruct Hs as (Hd & _ & _). unfold exec.
    rewrite remove_receiver_spec, take_each_findItems by done.
    destruct s. cbn in *. rewrite Hrest.
    rewrite filter_cons_True by (cbn; congruence). by eexists.
  - destruct (start_frame selected s) as [-> _]. by eexists.
  - destruct (toggle_frame checked s) as (-> & _). by eexists.
  - destruct (toggle_frame checked s) as (_ & _ & -> & _). by eexists.
  - destruct (closeEvent_frame s) as [-> _]. by eexists.
Qed.

Lemma sentinel_head_run (ops : list Op) (s : State) :
  wf s → Forall keeps_sentinel ops →
  (∃ rest, deviceSelectList s = sentinel_item :: rest) →
  ∃ rest, deviceSelectList (run ops s) = sentinel_item :: rest.
Proof.
  intros Hs Hops. revert s Hs.
  induction Hops as [|o ops Ho Hops IH]; intros s Hs Hhead; [done|].
  cbn. apply IH; [by apply wf_step|by apply sentinel_head_step].
Qed.

(** C9, as the spec has it, fails: a receiver displayed as "No display."
    is discovered and then lost; [remove_receiver] finds the sentinel by
    the same text and takes it out with the receiver's entry, so the
    list is empty and row 0 holds nothing. *)
Lemma sentinel_removed_with_receiver_of_same_text :
  let s := run [Discovered (receiver_added no_display_tv);
                Discovered (receiver_removed no_display_tv)] fresh in
  deviceSelectList fresh = [sentinel_item]
  ∧ deviceSelectList s = []
  ∧ QListWidget.item (deviceSelectList s) 0 = None.
Proof. split_and!; by vm_compute. Qed.

(** C9, amended: the device list holds the sentinel created at
    construction at row 0 in every state reached without a
    [receiver_removed] signal for a receiver displayed under the
    sentinel's text; [add_receiver] appends at the end in every state,
    so under every sequence of add events the receivers' entries follow
    the sentinel in insertion order. *)
Theorem sentinel_first_unless_removed_by_name
    (persisted : gmap string bool) (current_loop : get_event_loop_result)
    (ops : list Op) (rs : list AirplayReceiver) :
  Forall keeps_sentinel ops →
  let w := Window persisted current_loop in
  let s := exec (deliver_all (receiver_added <$> rs)) w in
  deviceSelectList w = [sentinel_item]
  ∧ QListWidget.item (deviceSelectList (run ops w)) 0 = Some sentinel_item
  ∧ (∀ s0 r, deviceSelectList (exec (add_receiver r) s0)
             = deviceSelectList s0
               ++ [mkItem (next_ptr s0) (list_entry_name r) (Some r)])
  ∧ outcome (deliver_all (receiver_added <$> rs)) w = Ok ()
  ∧ text <$> deviceSelectList s
    = AIRPLAY_NO_DISPLAY_NAME :: (list_entry_name <$> rs)
  ∧ data <$> deviceSelectList s = None :: (Some <$> rs).
Proof.
  intros Hops w s.
  destruct (add_only_run_spec persisted current_loop rs)
    as (Hinit & Hok & _ & Htext & Hdata).
  assert (Hhead : ∃ rest, deviceSelectList (run ops w) = sentinel_item :: rest).
  { apply sentinel_head_run; [apply wf_Window|done|]. exists []. exact Hinit. }
  destruct Hhead as [rest Hrest].
  assert (Happend : ∀ s0 r,
            deviceSelectList (exec (add_receiver r) s0)
            = deviceSelectList s0
              ++ [mkItem (next_ptr s0) (list_entry_name r) (Some r)]).
  { intros s0 r. unfold exec. rewrite add_receiver_spec. by destruct s0. }
  split_and!; try done. by rewrite Hrest.
Qed.

Lemma sentinel_first_unless_removed_by_name_witness :
  Forall keeps_sentinel
    [Discovered (receiver_added kitchen_a); StartClicked [1];
     Discovered (receiver_added kitchen_b);
     Discovered (receiver_removed kitchen_a); CloseRequested]
  ∧ QListWidget.item
      (deviceSelectList
         (run [Discovered (receiver_added kitchen_a); StartClicked [1];
               Discovered (receiver_added kitchen_b);
               Discovered (receiver_removed kitchen_a); CloseRequested]
            (Window ∅ the_loop))) 0
    = Some sentinel_item.
Proof.
  assert (Hops : Forall keeps_sentinel
            [Discovered (receiver_added kitchen_a); StartClicked [1];
             Discovered (receiver_added kitchen_b);
             Discovered (receiver_removed kitchen_a); CloseRequested])
    by (apply (bool_decide_unpack _); by vm_compute).
  split; [exact Hops|].
  exact (proj1 (proj2
           (sentinel_first_unless_removed_by_name ∅ the_loop _ [] Hops))).
Defined.

(** ** The two persisted preferences *)

(** C7, as the spec has it, fails: constructing the window on a fresh
    installation reads "systrayicon" three times and
    "promptOnClose_systray" twice, not once each, and a later close
    request reads "promptOnClose_systray" once more. *)
Lemma startup_reads_each_preference_more_than_once :
  reads_of "systrayicon" (trace fresh) = 3%nat
  ∧ reads_of "promptOnClose_systray" (trace fresh) = 2%nat
  ∧ reads_of "systrayicon" (trace fresh) ≠ 1%nat
  ∧ reads_of "promptOnClose_systray" (trace fresh) ≠ 1%nat
  ∧ reads_of "promptOnClose_systray"
      (trace (run [ShowIconToggled true; CloseRequested] fresh)) = 3%nat.
Proof. split_and!; by vm_compute. Qed.

(** C7, amended: at startup the window reads both preferences from the
    persisted settings, "systrayicon" three times and
    "promptOnClose_systray" twice, every read giving the persisted
    boolean ([False] when absent), and sets the two check boxes to them;
    on a toggle of either check box the new boolean is written to the
    box's key as it is. *)
Theorem preferences_read_at_startup_written_on_toggle
    (persisted : gmap string bool) (current_loop : get_event_loop_result)
    (s : State) (q : gmap string bool) (checked : bool) :
  settings s = Some q →
  let w := Window persisted current_loop in
  let icon := default false (persisted !! "systrayicon") in
  let prompt := default false (persisted !! "promptOnClose_systray") in
  filter (λ e, is_read_of "systrayicon" e ∨ is_read_of "promptOnClose_systray" e)
    (trace w)
  = [SettingsValue "systrayicon" icon; SettingsValue "systrayicon" icon;
     SettingsValue "promptOnClose_systray" prompt;
     SettingsValue "promptOnClose_systray" prompt;
     SettingsValue "systrayicon" icon]
  ∧ reads_of "systrayicon" (trace w) = 3%nat
  ∧ reads_of "promptOnClose_systray" (trace w) = 2%nat
  ∧ showIconCheckBox w = icon
  ∧ systrayClosePromptCheckBox w = prompt
  ∧ outcome (showIconCheckBox_toggled checked) s = Ok ()
  ∧ settings (exec (showIconCheckBox_toggled checked) s)
    = Some (<["systrayicon" := checked]> q)
  ∧ trace (exec (showIconCheckBox_toggled checked) s)
    = trace s ++ [SettingsSetValue "systrayicon" checked]
  ∧ outcome (systrayClosePromptCheckBox_toggled checked) s = Ok ()
  ∧ settings (exec (systrayClosePromptCheckBox_toggled checked) s)
    = Some (<["promptOnClose_systray" := checked]> q)
  ∧ trace (exec (systrayClosePromptCheckBox_toggled checked) s)
    = trace s ++ [Print ("Prompt on close is now " +:+ str checked);
                  SettingsSetValue "promptOnClose_systray" checked].
Proof.
  intros Hq w icon prompt. subst w icon prompt. rewrite Window_spec.
  fold (systrayicon_0 persisted) (promptOnClose_0 persisted).
  unfold startup_trace, reads_of.
  cbn [trace showIconCheckBox systrayClosePromptCheckBox].
  generalize (systrayicon_0 persisted) as icon,
    (promptOnClose_0 persisted) as prompt.
  intros icon prompt. split_and!; try done.
  - destruct icon, current_loop; reflexivity.
  - destruct icon, current_loop; reflexivity.
  - destruct icon, current_loop; reflexivity.
  - destruct s. cbn in Hq. by subst.
  - destruct s. cbn in Hq. by subst.
  - destruct s. cbn in Hq. by subst.
  - destruct s. cbn in Hq. by subst.
  - destruct s. cbn in Hq. by subst.
  - destruct s. cbn in Hq. subst. unfold exec, systrayClosePromptCheckBox_toggled,
      setSystrayClosePrompt. run_M. by rewrite <- app_assoc.
Qed.

Lemma preferences_read_at_startup_written_on_toggle_witness :
  settings fresh = Some (<["systrayicon" := false]> ∅)
  ∧ settings (exec (showIconCheckBox_toggled true) fresh)
    = Some (<["systrayicon" := true]> (<["systrayicon" := false]> ∅)).
Proof.
  split; [by vm_compute|].
  apply (preferences_read_at_startup_written_on_toggle ∅ the_loop fresh
           (<["systrayicon" := false]> ∅) true).
  by vm_compute.
Defined.

(** * Further properties of the modelled methods *)

(** ** Removal *)

Lemma findItems_absent (l : list QListWidgetItem) (name : string) :
  (∀ it, it ∈ l → text it ≠ name) → QListWidget.findItems l name = [].
Proof.
  intros Habsent. unfold QListWidget.findItems.
  induction l as [|y l IH]; [done|].
  rewrite filter_cons_False by (apply Habsent; by left).
  apply IH. intros it Hit. apply Habsent. by right.
Qed.

Lemma remove_absent_noop (r : AirplayReceiver) (s : State) :
  (∀ it, it ∈ deviceSelectList s → text it ≠ list_entry_name r) →
  remove_receiver r s = (Ok (), s).
Proof.
  intros Habsent. rewrite remove_receiver_spec, findItems_absent by done.
  destruct s. cbn. by rewrite app_nil_r.
Qed.

(** X1: [remove_receiver] for a receiver whose list entry name no item
    displays returns normally and changes nothing at all, not even the
    log: the loop body never runs. *)
Theorem remove_receiver_of_undisplayed_name_is_noop (r : AirplayReceiver)
    (s : State) :
  (∀ it, it ∈ deviceSelectList s → text it ≠ list_entry_name r) →
  remove_receiver r s = (Ok (), s).
Proof. apply remove_absent_noop. Qed.

Lemma remove_receiver_of_undisplayed_name_is_noop_witness :
  (∀ it, it ∈ deviceSelectList two_receivers →
         text it ≠ list_entry_name kitchen_a)
  ∧ remove_receiver kitchen_a two_receivers = (Ok (), two_receivers).
Proof.
  assert (Habsent : ∀ it, it ∈ deviceSelectList two_receivers →
                          text it ≠ list_entry_name kitchen_a).
  { apply Forall_forall. apply (bool_decide_unpack _). by vm_compute. }
  split; [exact Habsent|].
  apply (remove_receiver_of_undisplayed_name_is_noop kitchen_a two_receivers).
  exact Habsent.
Defined.

(** X2: on a list of distinct items a second [remove_receiver] for the
    same receiver finds nothing left: it returns normally and leaves the
    state of the first removal untouched. *)
Theorem remove_receiver_twice_is_remove_once (r : AirplayReceiver)
    (s : State) :
  wf s →
  remove_receiver r (exec (remove_receiver r) s)
  = (Ok (), exec (remove_receiver r) s).
Proof.
  intros (Hd & _ & _). apply remove_absent_noop.
  unfold exec. rewrite remove_receiver_spec, take_each_findItems by done.
  destruct s. cbn. by intros it [Htext _]%list_elem_of_filter.
Qed.

Lemma remove_receiver_twice_is_remove_once_witness :
  wf two_kitchens
  ∧ remove_receiver kitchen_b (exec (remove_receiver kitchen_b) two_kitchens)
    = (Ok (), exec (remove_receiver kitchen_b) two_kitchens).
Proof.
  split; [apply (bool_decide_unpack _); by vm_compute|].
  apply (remove_receiver_twice_is_remove_once kitchen_b two_kitchens).
  apply (bool_decide_unpack _). by vm_compute.
Defined.

(** X3: a [receiver_removed] signal for a receiver whose list entry name
    is the sentinel's text deletes the sentinel entry too: in the state
    the removal leaves no item shows "No display.", so in that state a
    start request on any row of the list takes the mirroring branch and
    installs a client for the row's data. *)
Theorem removing_receiver_named_like_sentinel_deletes_sentinel
    (r : AirplayReceiver) (s : State) :
  wf s →
  list_entry_name r = AIRPLAY_NO_DISPLAY_NAME →
  let s' := exec (remove_receiver r) s in
  (∀ it, it ∈ deviceSelectList s' → text it ≠ AIRPLAY_NO_DISPLAY_NAME)
  ∧ ∀ row it, QListWidget.item (deviceSelectList s') row = Some it →
      outcome (start_mirroring_to_selection [row]) s' = Ok ()
      ∧ _active_mirroring_client (exec (start_mirroring_to_selection [row]) s')
        = Some (mkClient (next_ptr s') (data it)).
Proof.
  intros (Hd & _ & _) Hname s'.
  assert (Hgone : ∀ it, it ∈ deviceSelectList s' →
                        text it ≠ AIRPLAY_NO_DISPLAY_NAME).
  { subst s'. unfold exec.
    rewrite remove_receiver_spec, take_each_findItems by done.
    destruct s. cbn. rewrite Hname.
    by intros it [Htext _]%list_elem_of_filter. }
  split; [done|]. intros row it Hrow.
  assert (Hit : it ∈ deviceSelectList s').
  { unfold QListWidget.item in Hrow. case_decide; [|done].
    by eapply list_elem_of_lookup_2. }
  unfold outcome, exec at 1.
  rewrite (start_receiver row it s' Hrow (Hgone it Hit)). by destruct s'.
Qed.

Lemma removing_receiver_named_like_sentinel_deletes_sentinel_witness :
  wf sentinel_and_namesake
  ∧ list_entry_name no_display_tv = AIRPLAY_NO_DISPLAY_NAME
  ∧ data <$> deviceSelectList sentinel_and_namesake
    = [None; Some living_room; Some no_display_tv]
  ∧ QListWidget.item
      (deviceSelectList
         (exec (remove_receiver no_display_tv) sentinel_and_namesake)) 0
    = Some (mkItem 1 "Living Room" (Some living_room))
  ∧ (∀ it, it ∈ deviceSelectList
                  (exec (remove_receiver no_display_tv) sentinel_and_namesake) →
           text it ≠ AIRPLAY_NO_DISPLAY_NAME)
  ∧ outcome (start_mirroring_to_selection [0])
      (exec (remove_receiver no_display_tv) sentinel_and_namesake) = Ok ()
  ∧ _active_mirroring_client
      (exec (start_mirroring_to_selection [0])
         (exec (remove_receiver no_display_tv) sentinel_and_namesake))
    = Some (mkClient
              (next_ptr
                 (exec (remove_receiver no_display_tv) sentinel_and_namesake))
              (Some living_room)).
Proof.
  assert (Hwf : wf sentinel_and_namesake)
    by (apply (bool_decide_unpack _); by vm_compute).
  assert (Hname : list_entry_name no_display_tv = AIRPLAY_NO_DISPLAY_NAME)
    by reflexivity.
  assert (Hrow : QListWidget.item
                   (deviceSelectList
                      (exec (remove_receiver no_display_tv)
                         sentinel_and_namesake)) 0
                 = Some (mkItem 1 "Living Room" (Some living_room)))
    by by vm_compute.
  assert (Hdata : data <$> deviceSelectList sentinel_and_namesake
                  = [None; Some living_room; Some no_display_tv])
    by by vm_compute.
  pose proof (removing_receiver_named_like_sentinel_deletes_sentinel
                no_display_tv sentinel_and_namesake Hwf Hname) as Hthm.
  cbv zeta in Hthm. destruct Hthm as [Hgone Hstart].
  destruct (Hstart 0 (mkItem 1 "Living Room" (Some living_room)) Hrow)
    as [Hok Hclient].
  split_and!; [exact Hwf|exact Hname|exact Hdata|exact Hrow|exact Hgone
              |exact Hok|exact Hclient].
Defined.

(** ** Discovery signals in sequence *)

Lemma deliver_returns (e : DiscoveryEvent) (s : State) :
  deliver e s = (Ok (), exec (deliver e) s).
Proof.
  destruct e as [r|r]; unfold exec; cbn [deliver].
  - by rewrite add_receiver_spec.
  - by rewrite remove_receiver_spec.
Qed.

Lemma deliver_all_cons (e : DiscoveryEvent) (es : list DiscoveryEvent)
    (s : State) :
  deliver_all (e :: es) s = deliver_all es (exec (deliver e) s).
Proof.
  unfold deliver_all. cbn [for_each].
  by rewrite (bind_ok _ _ _ _ _ (deliver_returns e s)).
Qed.

Lemma exec_deliver_all_cons (e : DiscoveryEvent) (es : list DiscoveryEvent)
    (s : State) :
  exec (deliver_all (e :: es)) s = exec (deliver_all es) (exec (deliver e) s).
Proof. unfold exec at 1 2. by rewrite deliver_all_cons. Qed.

Lemma deliver_all_app (es1 es2 : list DiscoveryEvent) (s : State) :
  deliver_all (es1 ++ es2) s = deliver_all es2 (exec (deliver_all es1) s).
Proof.
  revert s. induction es1 as [|e es1 IH]; intros s; [done|].
  cbn [app]. by rewrite deliver_all_cons, IH, exec_deliver_all_cons.
Qed.

Lemma deliver_all_returns (es : list DiscoveryEvent) (s : State) :
  outcome (deliver_all es) s = Ok ().
Proof.
  revert s. induction es as [|e es IH]; intros s; [done|].
  unfold outcome. rewrite deliver_all_cons. apply IH.
Qed.

Lemma wf_deliver_all (es : list DiscoveryEvent) (s : State) :
  wf s → wf (exec (deliver_all es) s).
Proof.
  revert s. induction es as [|e es IH]; intros s Hs; [done|].
  rewrite exec_deliver_all_cons. apply IH.
  destruct e; [by apply wf_add_receiver|by apply wf_remove_receiver].
Qed.

Lemma filter_all_stored (r : AirplayReceiver) (new : list QListWidgetItem)
    (n : nat) :
  data <$> new = replicate n (Some r) →
  filter (λ it, data it = Some r) new = new ∧ length new = n.
Proof.
  revert n. induction new as [|it new IH]; intros [|n] Hdata;
    try done.
  cbn in Hdata. injection Hdata as Hit Hnew.
  destruct (IH n Hnew) as [Hfilter Hlen].
  rewrite filter_cons_True by done. cbn. by rewrite Hfilter, Hlen.
Qed.

(** X4: [add_receiver] never looks for an entry that is already there:
    [n] [receiver_added] signals for one and the same receiver lengthen
    the list by [n] entries, all storing that receiver. *)
Theorem repeated_receiver_added_duplicates_entries (r : AirplayReceiver)
    (n : nat) (s : State) :
  let s' := exec (deliver_all (replicate n (receiver_added r))) s in
  outcome (deliver_all (replicate n (receiver_added r))) s = Ok ()
  ∧ length (deviceSelectList s') = (length (deviceSelectList s) + n)%nat
  ∧ length (entries_of r s') = (length (entries_of r s) + n)%nat.
Proof.
  cbn zeta. rewrite <- (fmap_replicate receiver_added n r).
  destruct (add_all_spec (replicate n r) s) as (Hok & new & Hlist & _ & Hdata).
  rewrite fmap_replicate in Hdata.
  destruct (filter_all_stored r new n Hdata) as [Hfilter Hlen].
  unfold entries_of. rewrite Hlist, filter_app, !length_app, Hfilter, Hlen.
  done.
Qed.

Lemma remove_all_spec (rs : list AirplayReceiver) (s : State) :
  wf s →
  deviceSelectList (exec (deliver_all (receiver_removed <$> rs)) s)
  = filter (λ it, text it ∉ list_entry_name <$> rs) (deviceSelectList s).
Proof.
  revert s. induction rs as [|r rs IH]; intros s Hs.
  - cbn. symmetry. clear Hs. induction (deviceSelectList s) as [|y l IHl]; [done|].
    rewrite filter_cons_True by apply not_elem_of_nil. by rewrite IHl.
  - cbn [fmap list_fmap]. rewrite exec_deliver_all_cons.
    rewrite IH by by apply wf_remove_receiver.
    cbn [deliver]. unfold exec at 1.
    destruct Hs as (Hd & _ & _).
    rewrite remove_receiver_spec, take_each_findItems by done.
    destruct s. cbn [deviceSelectList set_trace set_deviceSelectList snd].
    rewrite list_filter_filter. apply list_filter_iff.
    intros it. rewrite not_elem_of_cons. tauto.
Qed.

(** X5: discovering a batch of receivers and then losing all of them
    returns the list to what it showed before, minus every older entry
    that displays one of the batch's names; a list that showed none of
    these names is back exactly. *)
Theorem add_batch_then_remove_batch (rs : list AirplayReceiver) (s : State) :
  wf s →
  let es := (receiver_added <$> rs) ++ (receiver_removed <$> rs) in
  let s' := exec (deliver_all es) s in
  outcome (deliver_all es) s = Ok ()
  ∧ deviceSelectList s'
    = filter (λ it, text it ∉ list_entry_name <$> rs) (deviceSelectList s)
  ∧ ((∀ it, it ∈ deviceSelectList s → text it ∉ list_entry_name <$> rs) →
     deviceSelectList s' = deviceSelectList s).
Proof.
  intros Hs es s'. subst es s'.
  assert (Hlist :
    deviceSelectList
      (exec (deliver_all ((receiver_added <$> rs) ++ (receiver_removed <$> rs))) s)
    = filter (λ it, text it ∉ list_entry_name <$> rs) (deviceSelectList s)).
  { unfold exec at 1. rewrite deliver_all_app.
    fold (exec (deliver_all (receiver_removed <$> rs))
            (exec (deliver_all (receiver_added <$> rs)) s)).
    rewrite remove_all_spec by by apply wf_deliver_all.
    destruct (add_all_spec rs s) as (_ & new & Hadded & Htext & _).
    rewrite Hadded, filter_app. rewrite <- Htext.
    assert (Hnew : ∀ k, (∀ it, it ∈ k → it ∈ new) →
              filter (λ it, text it ∉ text <$> new) k = []).
    { induction k as [|y k IHk]; intros Hk; [done|].
      rewrite filter_cons_False.
      - apply IHk. intros it Hit. apply Hk. by right.
      - intros Hnot. apply Hnot, list_elem_of_fmap. exists y.
        split; [done|]. apply Hk. by left. }
    rewrite (Hnew new) by done. by rewrite app_nil_r. }
  split_and!; [apply deliver_all_returns|done|].
  intros Habsent. rewrite Hlist. clear Hlist Hs.
  induction (deviceSelectList s) as [|y l IHl]; [done|].
  rewrite filter_cons_True by (apply Habsent; by left).
  rewrite IHl; [done|]. intros it Hit. apply Habsent. by right.
Qed.

Lemma add_batch_then_remove_batch_witness :
  wf fresh
  ∧ deviceSelectList
      (exec (deliver_all ((receiver_added <$> [living_room; bedroom])
                          ++ (receiver_removed <$> [living_room; bedroom])))
         fresh)
    = filter (λ it, text it ∉ list_entry_name <$> [living_room; bedroom])
        (deviceSelectList fresh).
Proof.
  assert (Hfresh : wf fresh) by (apply (bool_decide_unpack _); by vm_compute).
  split; [exact Hfresh|].
  exact (proj1 (proj2
           (add_batch_then_remove_batch [living_room; bedroom] fresh Hfresh))).
Defined.

(** X6: discovery signals stay away from mirroring: neither
    [add_receiver] nor [remove_receiver] can raise, and they leave the
    installed client, its task, the loop's tasks, the settings and the
    loop's stop flag as they are.  In particular a receiver that
    disappears while it is mirrored to keeps its client and its task. *)
Theorem discovery_signals_leave_mirroring_alone (e : DiscoveryEvent)
    (s : State) :
  let s' := exec (deliver e) s in
  outcome (deliver e) s = Ok ()
  ∧ _active_mirroring_client s' = _active_mirroring_client s
  ∧ _active_mirroring s' = _active_mirroring s
  ∧ loop_tasks s' = loop_tasks s
  ∧ settings s' = settings s
  ∧ loop_stopping s' = loop_stopping s.
Proof.
  cbn zeta. unfold outcome, exec. destruct e as [r|r]; cbn [deliver].
  - rewrite add_receiver_spec. by destruct s.
  - rewrite remove_receiver_spec. by destruct s.
Qed.

(** ** Start requests *)

(** X7: whatever rows are selected, [start_mirroring_to_selection]
    leaves the device list, the settings, the check boxes, the tray
    icon, the window's visibility, the listener and the loop's stop flag
    alone, and it never takes a task off the loop: the tasks scheduled
    before the call are a prefix of those after it. *)
Theorem start_request_frame (selected : list Z) (s : State) :
  let s' := exec (start_mirroring_to_selection selected) s in
  deviceSelectList s' = deviceSelectList s
  ∧ settings s' = settings s
  ∧ showIconCheckBox s' = showIconCheckBox s
  ∧ systrayClosePromptCheckBox s' = systrayClosePromptCheckBox s
  ∧ trayIcon s' = trayIcon s
  ∧ visible s' = visible s
  ∧ service_listener s' = service_listener s
  ∧ loop_stopping s' = loop_stopping s
  ∧ loop_tasks s `prefix_of` loop_tasks s'.
Proof.
  cbn zeta. unfold exec. destruct selected as [|row [|row' rest]].
  - rewrite start_none. by destruct s.
  - destruct (QListWidget.item (deviceSelectList s) row) as [it|] eqn:Hrow.
    + destruct (decide (text it = AIRPLAY_NO_DISPLAY_NAME)).
      * erewrite start_sentinel by done. by destruct s.
      * erewrite start_receiver by done. destruct s; cbn.
        split_and!; try done. by apply prefix_app_r.
    + by rewrite start_out_of_range.
  - rewrite start_many by (cbn; lia). by destruct s.
Qed.

(** X8: a receiver that was just added can be mirrored to: once
    [add_receiver r] has run, selecting the new last row and pressing the
    button installs a client whose target is [r] and schedules its start,
    provided [r] is not displayed under the sentinel's text. *)
Theorem added_receiver_can_be_started (r : AirplayReceiver) (s : State) :
  list_entry_name r ≠ AIRPLAY_NO_DISPLAY_NAME →
  let s1 := exec (add_receiver r) s in
  let row := Z.of_nat (length (deviceSelectList s)) in
  let client := mkClient (S (next_ptr s)) (Some r) in
  outcome (start_mirroring_to_selection [row]) s1 = Ok ()
  ∧ _active_mirroring_client (exec (start_mirroring_to_selection [row]) s1)
    = Some client
  ∧ loop_tasks (exec (start_mirroring_to_selection [row]) s1)
    = loop_tasks s ++ [ClientStart client].
Proof.
  intros Hname s1 row client.
  assert (Hrow : QListWidget.item (deviceSelectList s1) row
                 = Some (mkItem (next_ptr s) (list_entry_name r) (Some r))).
  { subst s1 row. unfold exec. rewrite add_receiver_spec.
    unfold QListWidget.item. rewrite decide_True by lia.
    rewrite Nat2Z.id. destruct s; cbn. by rewrite list_lookup_middle. }
  unfold outcome, exec at 1 2.
  rewrite (start_receiver row _ s1 Hrow Hname).
  subst s1 client. unfold exec. rewrite add_receiver_spec. by destruct s.
Qed.

Lemma added_receiver_can_be_started_witness :
  list_entry_name bedroom ≠ AIRPLAY_NO_DISPLAY_NAME
  ∧ outcome (start_mirroring_to_selection [Z.of_nat (length (deviceSelectList fresh))])
      (exec (add_receiver bedroom) fresh) = Ok ().
Proof.
  assert (Hname : list_entry_name bedroom ≠ AIRPLAY_NO_DISPLAY_NAME)
    by by vm_compute.
  split; [exact Hname|].
  exact (proj1 (added_receiver_can_be_started bedroom fresh Hname)).
Defined.

(** ** Clients always have a target *)

Lemma Forall_takeItem (P : QListWidgetItem → Prop)
    (l : list QListWidgetItem) (r : Z) :
  Forall P l → Forall P (QListWidget.takeItem l r).
Proof.
  intros Hl. unfold QListWidget.takeItem. case_decide; [|done].
  by apply Forall_delete.
Qed.

Lemma Forall_take_each (P : QListWidgetItem → Prop)
    (xs l : list QListWidgetItem) :
  Forall P l → Forall P (take_each l xs).
Proof.
  revert l. induction xs as [|x xs IH]; intros l Hl; [done|].
  cbn. apply IH. by apply Forall_takeItem.
Qed.

Lemma targets_ok_frame (s s' : State) :
  deviceSelectList s' = deviceSelectList s →
  _active_mirroring_client s' = _active_mirroring_client s →
  (∀ c, ClientStart c ∈ loop_tasks s' → ClientStart c ∈ loop_tasks s) →
  targets_ok s → targets_ok s'.
Proof.
  intros Hl Hc Ht (Hitems & Hclient & Htasks). unfold targets_ok.
  rewrite Hl, Hc. split_and!; [done..|]. intros c Hin. by apply Htasks, Ht.
Qed.

Lemma targets_ok_Window persisted current_loop :
  targets_ok (Window persisted current_loop).
Proof.
  rewrite Window_spec. unfold targets_ok.
  cbn [deviceSelectList _active_mirroring_client loop_tasks].
  split_and!; [by repeat constructor|done|].
  intros c. destruct current_loop.
  - intros [=]%list_elem_of_singleton.
  - intros ?%elem_of_nil. done.
Qed.

Lemma targets_ok_deliver (e : DiscoveryEvent) (s : State) :
  targets_ok s → targets_ok (exec (deliver e) s).
Proof.
  intros (Hitems & Hclient & Htasks). unfold exec.
  destruct e as [r|r]; cbn [deliver].
  - rewrite add_receiver_spec. destruct s. unfold targets_ok in *. cbn in *.
    split_and!; [|done..]. apply Forall_app. split; [done|].
    by repeat constructor.
  - rewrite remove_receiver_spec. destruct s. unfold targets_ok in *.
    cbn [deviceSelectList _active_mirroring_client loop_tasks set_trace
         set_deviceSelectList snd] in *.
    split_and!; [|done..]. by apply Forall_take_each.
Qed.

Lemma targets_ok_start (selected : list Z) (s : State) :
  targets_ok s → targets_ok (exec (start_mirroring_to_selection selected) s).
Proof.
  intros Hs. unfold exec. destruct selected as [|row [|row' rest]].
  - rewrite start_none. apply (targets_ok_frame s); by destruct s.
  - destruct (QListWidget.item (deviceSelectList s) row) as [it|] eqn:Hrow.
    + destruct (decide (text it = AIRPLAY_NO_DISPLAY_NAME)) as [|Htext].
      * erewrite start_sentinel by done.
        apply (targets_ok_frame s); by destruct s.
      * erewrite start_receiver by done.
        destruct Hs as (Hitems & Hclient & Htasks).
        assert (Hit : is_Some (data it)).
        { assert (it ∈ deviceSelectList s) as Hin.
          { unfold QListWidget.item in Hrow. case_decide; [|done].
            by eapply list_elem_of_lookup_2. }
          rewrite Forall_forall in Hitems. specialize (Hitems it Hin).
          destruct (data it); [by eexists|]. by destruct Htext, Hitems. }
        destruct s. unfold targets_ok in *. cbn in *.
        split_and!; [done| |].
        -- intros c [= Heq]. by subst c.
        -- intros c [Hin|Hin%list_elem_of_singleton]%elem_of_app;
             [by apply Htasks|]. injection Hin as Heq. by subst c.
    + by rewrite start_out_of_range.
  - rewrite start_many by (cbn; lia).
    apply (targets_ok_frame s); by destruct s.
Qed.

Lemma targets_ok_toggles_and_close (s : State) (checked : bool) :
  targets_ok s →
  targets_ok (exec (showIconCheckBox_toggled checked) s)
  ∧ targets_ok (exec (systrayClosePromptCheckBox_toggled checked) s)
  ∧ targets_ok (exec closeEvent s).
Proof.
  intros Hs. split_and!; apply (targets_ok_frame s); try done;
    destruct s as [[q|] ? ? [|] ? ? [l|] ? ? ? ? ? ?];
    unfold closeEvent, quit; run_M; try done;
    try (by destruct (default false (q !! "promptOnClose_systray")));
    intros c [Hin|Hin%list_elem_of_singleton]%elem_of_app; done.
Qed.

Lemma targets_ok_step (o : Op) (s : State) :
  targets_ok s → targets_ok (exec (step o) s).
Proof.
  intros Hs. destruct o as [e|selected|checked|checked|]; cbn [step].
  - by apply targets_ok_deliver.
  - by apply targets_ok_start.
  - by apply (targets_ok_toggles_and_close s checked).
  - by apply (targets_ok_toggles_and_close s checked).
  - by apply (targets_ok_toggles_and_close s true).
Qed.

Lemma targets_ok_run (ops : list Op) (s : State) :
  targets_ok s → targets_ok (run ops s).
Proof.
  revert s. induction ops as [|o ops IH]; intros s Hs; [done|].
  cbn. apply IH. by apply targets_ok_step.
Qed.

(** X9: however a constructed window is driven by discovery signals,
    start clicks with arbitrary selections, check box toggles and close
    requests, [OpenAirPlayMirroringClient] is never constructed on
    [None]: the installed client and every start task on the loop have a
    receiver as target, and the only items without a stored receiver are
    those that show the sentinel's text. *)
Theorem clients_always_have_a_target (persisted : gmap string bool)
    (current_loop : get_event_loop_result) (ops : list Op) :
  targets_ok (run ops (Window persisted current_loop)).
Proof. apply targets_ok_run, targets_ok_Window. Qed.

(** X10: in every state a constructed window can reach, a start request
    on a selected row that does not show the sentinel's text installs a
    client for the receiver stored in that row, and that receiver is one
    whose list entry name is the text the row shows: the target is read
    from the selected item, not looked up by name. *)
Theorem start_targets_receiver_of_selected_row (persisted : gmap string bool)
    (current_loop : get_event_loop_result) (ops : list Op) (row : Z)
    (it : QListWidgetItem) :
  let s := run ops (Window persisted current_loop) in
  QListWidget.item (deviceSelectList s) row = Some it →
  text it ≠ AIRPLAY_NO_DISPLAY_NAME →
  ∃ r, data it = Some r
       ∧ list_entry_name r = text it
       ∧ _active_mirroring_client (exec (start_mirroring_to_selection [row]) s)
         = Some (mkClient (next_ptr s) (Some r)).
Proof.
  intros s Hrow Htext.
  assert (Hin : it ∈ deviceSelectList s).
  { unfold QListWidget.item in Hrow. case_decide; [|done].
    by eapply list_elem_of_lookup_2. }
  destruct (targets_ok_run ops _ (targets_ok_Window persisted current_loop))
    as (Hitems & _ & _).
  destruct (wf_reachable persisted current_loop ops) as (_ & _ & Hshows).
  fold s in Hitems, Hshows. rewrite Forall_forall in Hitems, Hshows.
  specialize (Hitems it Hin). specialize (Hshows it Hin).
  unfold shows_its_receiver in Hshows.
  destruct (data it) as [r|] eqn:Hdata; [|by destruct Htext, Hitems].
  exists r. split_and!; [done..|].
  unfold exec. rewrite (start_receiver row it s Hrow Htext), Hdata.
  by destruct s.
Qed.

Lemma start_targets_receiver_of_selected_row_witness :
  QListWidget.item
    (deviceSelectList
       (run [Discovered (receiver_added kitchen_a);
             Discovered (receiver_added kitchen_b)] (Window ∅ the_loop))) 2
  = Some (mkItem 2 "Kitchen" (Some kitchen_b))
  ∧ text (mkItem 2 "Kitchen" (Some kitchen_b)) ≠ AIRPLAY_NO_DISPLAY_NAME
  ∧ ∃ r, data (mkItem 2 "Kitchen" (Some kitchen_b)) = Some r
         ∧ list_entry_name r = text (mkItem 2 "Kitchen" (Some kitchen_b))
         ∧ _active_mirroring_client
             (exec (start_mirroring_to_selection [2])
                (run [Discovered (receiver_added kitchen_a);
                      Discovered (receiver_added kitchen_b)]
                   (Window ∅ the_loop)))
           = Some (mkClient
                     (next_ptr
                        (run [Discovered (receiver_added kitchen_a);
                              Discovered (receiver_added kitchen_b)]
                           (Window ∅ the_loop)))
                     (Some r)).
Proof.
  assert (Hrow : QListWidget.item
            (deviceSelectList
               (run [Discovered (receiver_added kitchen_a);
                     Discovered (receiver_added kitchen_b)]
                  (Window ∅ the_loop))) 2
          = Some (mkItem 2 "Kitchen" (Some kitchen_b))) by by vm_compute.
  assert (Htext : text (mkItem 2 "Kitchen" (Some kitchen_b))
                  ≠ AIRPLAY_NO_DISPLAY_NAME) by by vm_compute.
  split_and!; [exact Hrow|exact Htext|].
  exact (start_targets_receiver_of_selected_row ∅ the_loop
           [Discovered (receiver_added kitchen_a);
            Discovered (receiver_added kitchen_b)] 2 _ Hrow Htext).
Defined.

(** ** Preferences and closing the window *)

Lemma closeEvent_tray_visible (q : gmap string bool) (s : State) :
  settings s = Some q →
  trayIcon s = true →
  let prompt := default false (q !! "promptOnClose_systray") in
  closeEvent s =
  (Ok (),
   set_trace
     (trace s
      ++ SettingsValue "promptOnClose_systray" prompt
         :: (if prompt
             then [Log INFO "The program is returning to the system tray, user notified.";
                   MessageBox "Systray"]
             else [Log INFO "Program returned to system tray, user chose not to be notified."])
      ++ [CloseEventIgnored; Log INFO "Closing to System Tray"])
     (set_visible false s)).
Proof.
  intros Hq Htray prompt. destruct s. cbn in Hq, Htray. subst.
  unfold closeEvent. run_M. fold prompt.
  destruct prompt; cbn; by rewrite <- !app_assoc.
Qed.

Lemma closeEvent_tray_hidden (s : State) :
  trayIcon s = false →
  closeEvent s =
  quit 0 (set_trace (trace s ++ [Log WARN "Tray Icon not visible, quitting."]) s).
Proof. intros Htray. destruct s. cbn in Htray. by subst. Qed.

Lemma fresh_spec :
  fresh =
  mkState (Some (<["systrayicon" := false]> ∅)) false false false true
    [mkItem 0 AIRPLAY_NO_DISPLAY_NAME None] (Some (mkListener true))
    None None [DiscoveryScan] false 1%nat (startup_trace ∅ the_loop).
Proof.
  unfold fresh. rewrite Window_spec. unfold systrayicon_0, promptOnClose_0.
  by rewrite !lookup_empty.
Qed.

Lemma with_tray_icon_spec :
  with_tray_icon =
  mkState (Some {["systrayicon" := true]}) true false true true
    [mkItem 0 AIRPLAY_NO_DISPLAY_NAME None] (Some (mkListener true))
    None None [DiscoveryScan] false 1%nat
    (startup_trace {["systrayicon" := true]} the_loop).
Proof.
  unfold with_tray_icon. rewrite Window_spec.
  unfold systrayicon_0, promptOnClose_0.
  by rewrite lookup_singleton_eq, lookup_singleton_ne.
Qed.

(** X11: a toggle writes through to the settings: after either check
    box is toggled to [checked], a read of its key returns [checked],
    and a read of the other key returns what it returned before. *)
Theorem toggled_preference_reads_back (s : State) (q : gmap string bool)
    (checked : bool) :
  settings s = Some q →
  reads_as "systrayicon" (exec (showIconCheckBox_toggled checked) s)
  = Ok checked
  ∧ reads_as "promptOnClose_systray" (exec (showIconCheckBox_toggled checked) s)
    = reads_as "promptOnClose_systray" s
  ∧ reads_as "promptOnClose_systray"
      (exec (systrayClosePromptCheckBox_toggled checked) s)
    = Ok checked
  ∧ reads_as "systrayicon" (exec (systrayClosePromptCheckBox_toggled checked) s)
    = reads_as "systrayicon" s.
Proof.
  intros Hq. destruct s. cbn in Hq. subst.
  unfold reads_as, showIconCheckBox_toggled, systrayClosePromptCheckBox_toggled,
    trayIconVisible, setSystrayClosePrompt.
  run_M. rewrite !lookup_insert_eq, !lookup_insert_ne by done. done.
Qed.

Lemma toggled_preference_reads_back_witness :
  settings fresh = Some (<["systrayicon" := false]> ∅)
  ∧ reads_as "systrayicon" (exec (showIconCheckBox_toggled true) fresh)
    = Ok true.
Proof.
  assert (Hq : settings fresh = Some (<["systrayicon" := false]> ∅))
    by by rewrite fresh_spec.
  split; [exact Hq|].
  exact (proj1 (toggled_preference_reads_back fresh _ true Hq)).
Defined.

(** X12: construction may write "systrayicon" back, but it never changes
    what a preference reads as: after [Window(...)] both keys read as
    they were persisted ([False] when absent), and the tray icon is
    visible exactly when "systrayicon" reads [True]. *)
Theorem startup_keeps_preferences (persisted : gmap string bool)
    (current_loop : get_event_loop_result) :
  let w := Window persisted current_loop in
  reads_as "systrayicon" w = Ok (default false (persisted !! "systrayicon"))
  ∧ reads_as "promptOnClose_systray" w
    = Ok (default false (persisted !! "promptOnClose_systray"))
  ∧ trayIcon w = default false (persisted !! "systrayicon").
Proof.
  cbn zeta. rewrite Window_spec. unfold reads_as, systrayicon_0.
  destruct (default false (persisted !! "systrayicon")) eqn:Hicon;
    run_M; rewrite ?lookup_insert_eq, ?lookup_insert_ne, ?Hicon by done; done.
Qed.

(** X13: a close request while the tray icon is visible never quits: it
    returns normally, hides the window, ignores the event, and leaves
    the settings, the loop and its tasks alone; it reads
    "promptOnClose_systray" and shows the "Systray" message box exactly
    when that reads [True]. *)
Theorem close_with_tray_icon_hides_window (s : State)
    (q : gmap string bool) :
  settings s = Some q →
  trayIcon s = true →
  let s' := exec closeEvent s in
  let prompt := default false (q !! "promptOnClose_systray") in
  outcome closeEvent s = Ok ()
  ∧ visible s' = false
  ∧ settings s' = Some q
  ∧ loop_stopping s' = loop_stopping s
  ∧ loop_tasks s' = loop_tasks s
  ∧ (∃ shown, trace s' = trace s ++ shown
              ∧ CloseEventIgnored ∈ shown
              ∧ (MessageBox "Systray" ∈ shown ↔ prompt = true)).
Proof.
  intros Hq Htray s' prompt. subst s'. unfold outcome, exec.
  rewrite (closeEvent_tray_visible q s Hq Htray). fold prompt.
  destruct s. cbn in *. subst. split_and!; try done.
  eexists. split; [reflexivity|]. destruct prompt.
  - split; [set_solver|]. split; [done|]. set_solver.
  - split; [set_solver|]. split; [|done].
    intros Hin. repeat (apply elem_of_cons in Hin as [Hin|Hin]; [done|]).
    by apply elem_of_nil in Hin.
Qed.

Lemma close_with_tray_icon_hides_window_witness :
  settings with_tray_icon = Some {["systrayicon" := true]}
  ∧ trayIcon with_tray_icon = true
  ∧ outcome closeEvent with_tray_icon = Ok ().
Proof.
  assert (Hq : settings with_tray_icon = Some {["systrayicon" := true]})
    by by rewrite with_tray_icon_spec.
  assert (Htray : trayIcon with_tray_icon = true)
    by by rewrite with_tray_icon_spec.
  split_and!; [exact Hq|exact Htray|].
  exact (proj1 (close_with_tray_icon_hides_window _ _ Hq Htray)).
Defined.

(** X14: a close request while the tray icon is hidden quits with reason
    0: on a window that has its settings and its listener it ends in
    [SystemExit 0] with the loop asked to stop, the listener's quit
    scheduled and the settings attribute gone; the window is not hidden
    first. *)
Theorem close_without_tray_icon_quits (s : State) (q : gmap string bool)
    (l : AirplayServiceListener) :
  settings s = Some q →
  service_listener s = Some l →
  trayIcon s = false →
  let s' := exec closeEvent s in
  outcome closeEvent s = Raise (SystemExit 0)
  ∧ loop_stopping s' = true
  ∧ loop_tasks s' = loop_tasks s ++ [ListenerQuit]
  ∧ settings s' = None
  ∧ visible s' = visible s
  ∧ trace s' = trace s ++ [Log WARN "Tray Icon not visible, quitting.";
                           EnsureFuture ListenerQuit; LoopStop].
Proof.
  intros Hq Hl Htray s'. subst s'. unfold outcome, exec.
  rewrite (closeEvent_tray_hidden s Htray).
  rewrite (quit_spec 0 q l) by by destruct s.
  destruct s. cbn. split_and!; try done. by rewrite <- app_assoc.
Qed.

Lemma close_without_tray_icon_quits_witness :
  settings fresh = Some (<["systrayicon" := false]> ∅)
  ∧ service_listener fresh = Some (mkListener true)
  ∧ trayIcon fresh = false
  ∧ outcome closeEvent fresh = Raise (SystemExit 0).
Proof.
  assert (Hq : settings fresh = Some (<["systrayicon" := false]> ∅))
    by by rewrite fresh_spec.
  assert (Hl : service_listener fresh = Some (mkListener true))
    by by rewrite fresh_spec.
  assert (Htray : trayIcon fresh = false) by by rewrite fresh_spec.
  split_and!; [exact Hq|exact Hl|exact Htray|].
  exact (proj1 (close_without_tray_icon_quits fresh _ _ Hq Hl Htray)).
Defined.

(** X15: closing the window right after startup.  When "systrayicon" is
    persisted as [True] the window goes to the tray; otherwise (also on
    an installation that never stored the key) the request quits the
    program, or, when construction found no event loop, fails on the
    missing listener. *)
Theorem close_right_after_startup (persisted : gmap string bool)
    (current_loop : get_event_loop_result) :
  outcome closeEvent (Window persisted current_loop)
  = if default false (persisted !! "systrayicon") then Ok ()
    else match current_loop with
         | LoopFound _ => Raise (SystemExit 0)
         | LoopRuntimeError _ => Raise (AttributeError "service_listener")
         end.
Proof.
  rewrite Window_spec. unfold systrayicon_0, outcome.
  destruct (default false (persisted !! "systrayicon")).
  - erewrite closeEvent_tray_visible by done. done.
  - rewrite closeEvent_tray_hidden by done. cbn.
    destruct current_loop.
    + by erewrite quit_spec.
    + by erewrite quit_no_listener.
Qed.

(** X16: the "Show tray icon" check box decides what closing the window
    does: on a window with its settings and its listener, a close
    request that follows a toggle to [checked] hides the window when
    [checked] is true and quits with reason 0 when it is false. *)
Theorem show_icon_toggle_decides_close (s : State) (q : gmap string bool)
    (l : AirplayServiceListener) (checked : bool) :
  settings s = Some q →
  service_listener s = Some l →
  outcome closeEvent (exec (showIconCheckBox_toggled checked) s)
  = if checked then Ok () else Raise (SystemExit 0).
Proof.
  intros Hq Hl. unfold outcome.
  set (s1 := exec (showIconCheckBox_toggled checked) s).
  assert (Hq1 : settings s1 = Some (<["systrayicon" := checked]> q))
    by (destruct s; cbn in *; by subst).
  assert (Hl1 : service_listener s1 = Some l)
    by (destruct s; cbn in *; by subst).
  assert (Ht1 : trayIcon s1 = checked) by (destruct s; cbn in *; by subst).
  destruct checked.
  - by erewrite closeEvent_tray_visible.
  - rewrite closeEvent_tray_hidden by done. by erewrite quit_spec.
Qed.

Lemma show_icon_toggle_decides_close_witness :
  settings fresh = Some (<["systrayicon" := false]> ∅)
  ∧ service_listener fresh = Some (mkListener true)
  ∧ outcome closeEvent (exec (showIconCheckBox_toggled true) fresh) = Ok ().
Proof.
  assert (Hq : settings fresh = Some (<["systrayicon" := false]> ∅))
    by by rewrite fresh_spec.
  assert (Hl : service_listener fresh = Some (mkListener true))
    by by rewrite fresh_spec.
  split_and!; [exact Hq|exact Hl|].
  exact (show_icon_toggle_decides_close fresh _ _ true Hq Hl).
Defined.

(** X17: a window constructed without an event loop has no listener,
    and [quit] on it neither stops the loop nor exits: it deletes the
    settings attribute and then fails on the missing listener; a second
    [quit] fails on the missing settings and changes nothing. *)
Theorem quit_without_listener_fails (persisted : gmap string bool)
    (e : string) (reason : Z) :
  let w := Window persisted (LoopRuntimeError e) in
  let w' := exec (quit reason) w in
  service_listener w = None
  ∧ outcome (quit reason) w = Raise (AttributeError "service_listener")
  ∧ settings w' = None
  ∧ loop_stopping w' = false
  ∧ loop_tasks w' = []
  ∧ quit reason w' = (Raise (AttributeError "settings"), w').
Proof.
  cbn zeta. rewrite Window_spec. unfold outcome, exec.
  erewrite quit_no_listener by done. cbn.
  split_and!; done.
Qed.

(** ** The icon chooser, the tray icon's picture and the notification test *)

Lemma durationSpinBox_created :
  createMessageGroupBox_setRange_setValue = Some (QSpinBox.mk 2 15 5).
Proof. reflexivity. Qed.

Lemma form_inv_init : form_inv Form_init.
Proof. apply (bool_decide_unpack _). by vm_compute. Qed.

(** Splits an index known to lie in a short range into its cases. *)
Ltac split_index i :=
  match goal with
  | H : 0 ≤ i < 2 |- _ =>
    let Hi := fresh in
    assert (i = 0 ∨ i = 1) as Hi by lia; clear H; destruct Hi as [->| ->]
  | H : 0 ≤ i < 4 |- _ =>
    let Hi := fresh in
    assert (i = 0 ∨ i = 1 ∨ i = 2 ∨ i = 3) as Hi by lia; clear H;
    destruct Hi as [->|[->|[->| ->]]]
  end.

Lemma showMessage_inv (f : Form) :
  form_inv f →
  ∃ icon,
    QComboBox.itemData (typeComboBox f) (QComboBox.currentIndex (typeComboBox f))
    = Some icon
    ∧ showMessage f =
      Some (mkForm (iconComboBox f) (typeComboBox f) (durationSpinBox f)
              (titleEdit f) (bodyEdit f) (trayIcon_icon f) (windowIcon f)
              (notifications f ++
                 [mkNotification (titleEdit f) (bodyEdit f) icon
                    (QSpinBox.value (durationSpinBox f) * 1000)])).
Proof.
  intros (_ & _ & _ & _ & Hitems & Hindex & _).
  destruct f as [box [items2 i2] spin t b ti wi ns]. cbn in *. subst items2.
  split_index i2; eexists; (split; [reflexivity|reflexivity]).
Qed.

Lemma form_step_inv (o : FormOp) (f : Form) :
  form_inv f → FormOp_valid o →
  ∃ f', form_step o f = Some f' ∧ form_inv f'.
Proof.
  intros Hinv Hvalid.
  destruct (showMessage_inv f Hinv) as (micon & _ & Hshow).
  assert (Hshown : ∃ f', showMessage f = Some f' ∧ form_inv f').
  { rewrite Hshow. eexists. split; [done|]. exact Hinv. }
  destruct o as [reason|index|index|v|text|text|]; cbn [form_step];
    try done; try (by eexists); clear Hshow micon.
  - destruct reason; cbn [iconActivated]; try exact Hshown;
      try (by eexists); clear Hshown;
      destruct f as [[items1 i1] box2 [mn mx v] t b ti wi ns];
      destruct Hinv as
        (Hitems & Hi1 & Hti & Hwi & Hitems2 & Hi2 & Hmn & Hmx & Hv);
      cbn in *; subst items1 wi ti;
      split_index i1; (eexists; split; [vm_compute; reflexivity|]);
      unfold form_inv; cbn; split_and!; done || lia.
  - cbn in Hvalid.
    destruct f as [[items1 i1] box2 [mn mx v] t b ti wi ns].
    destruct Hinv as
      (Hitems & Hi1 & Hti & Hwi & Hitems2 & Hi2 & Hmn & Hmx & Hv).
    cbn in *. subst items1 wi ti.
    split_index i1; split_index index; (eexists; split; [vm_compute; reflexivity|]);
      unfold form_inv; cbn; split_and!; done || lia.
  - cbn in Hvalid.
    destruct f as [box1 [items2 i2] [mn mx v] t b ti wi ns].
    destruct Hinv as
      (Hitems & Hi1 & Hti & Hwi & Hitems2 & Hi2 & Hmn & Hmx & Hv).
    cbn in *. subst items2.
    split_index i2; split_index index; (eexists; split; [vm_compute; reflexivity|]);
      unfold form_inv; cbn; split_and!; done || lia.
  - destruct f as [box1 box2 [mn mx v0] t b ti wi ns].
    destruct Hinv as
      (Hitems & Hi1 & Hti & Hwi & Hitems2 & Hi2 & Hmn & Hmx & Hv).
    cbn in *. subst mn mx.
    unfold QSpinBox.setValue, py_int_arg. rewrite decide_True by done.
    eexists. split; [reflexivity|].
    unfold form_inv, QSpinBox.bound; cbn.
    split_and!; try done; lia.
Qed.

(** X18: however the form is used (tray activations of any kind, any
    entries chosen in the two boxes, any duration that fits a C [int]
    set on the spin box, any title and body entered, the "Show Message"
    button), no handler raises, and afterwards the tray icon and the
    window still show the picture of the icon chooser's current entry,
    both boxes still have a current entry and the duration is still
    within 2..15 seconds.  A duration that does not fit a C [int] is the
    one way to make a step raise. *)
Theorem form_handlers_never_raise (ops : list FormOp) :
  Forall FormOp_valid ops →
  (∃ f, form_run ops Form_init = Some f ∧ form_inv f)
  ∧ ∀ f v, ¬ c_int v → form_run (ops ++ [DurationEdited v]) f = None.
Proof.
  intros Hops. split.
  - generalize form_inv_init. generalize Form_init. intros f Hf.
    revert f Hf. induction Hops as [|o ops Ho Hops IH]; intros f Hf.
    + by exists f.
    + destruct (form_step_inv o f Hf Ho) as (f' & Hstep & Hf').
      cbn [form_run]. rewrite Hstep. by apply IH.
  - intros f v Hv. clear Hops. revert f.
    induction ops as [|o ops IH]; intros f.
    + cbn. unfold QSpinBox.setValue, py_int_arg. by rewrite decide_False.
    + cbn [app form_run]. destruct (form_step o f); [apply IH|done].
Qed.

Lemma form_handlers_never_raise_witness :
  Forall FormOp_valid
    [TrayActivated Trigger; TypeChosen 3; DurationEdited 100;
     TrayActivated MiddleClick]
  ∧ ∃ f, form_run [TrayActivated Trigger; TypeChosen 3; DurationEdited 100;
                   TrayActivated MiddleClick] Form_init = Some f
         ∧ form_inv f.
Proof.
  assert (Hops : Forall FormOp_valid
            [TrayActivated Trigger; TypeChosen 3; DurationEdited 100;
             TrayActivated MiddleClick])
    by (apply (bool_decide_unpack _); by vm_compute).
  split; [exact Hops|]. exact (proj1 (form_handlers_never_raise _ Hops)).
Defined.

(** X19: a click or a double click on the tray icon moves the icon
    chooser to its other entry and the tray icon and the window to that
    entry's picture, and a second click brings the form back exactly:
    the two icons alternate. *)
Theorem tray_click_alternates_icons (f : Form) :
  form_inv f →
  ∃ f', iconActivated Trigger f = Some f'
        ∧ iconActivated DoubleClick f = Some f'
        ∧ QComboBox.currentIndex (iconComboBox f')
          = 1 - QComboBox.currentIndex (iconComboBox f)
        ∧ trayIcon_icon f'
          = (if decide (trayIcon_icon f = Airplay_Dark)
             then Airplay_Light else Airplay_Dark)
        ∧ windowIcon f' = trayIcon_icon f'
        ∧ notifications f' = notifications f
        ∧ iconActivated Trigger f' = Some f.
Proof.
  intros (Hitems & Hi1 & Hti & Hwi & _).
  destruct f as [[items1 i1] box2 spin t b ti wi ns]. cbn in *.
  subst items1 wi ti.
  split_index i1; eexists; split_and!; reflexivity.
Qed.

Lemma tray_click_alternates_icons_witness :
  form_inv Form_init
  ∧ ∃ f', iconActivated Trigger Form_init = Some f'
          ∧ trayIcon_icon f' = Airplay_Light.
Proof.
  assert (Hinit : form_inv Form_init)
    by (apply (bool_decide_unpack _); by vm_compute).
  split; [exact Hinit|].
  destruct (tray_click_alternates_icons Form_init Hinit)
    as (f' & Hclick & _ & _ & Hicon & _).
  exists f'. split; [exact Hclick|]. rewrite Hicon. reflexivity.
Defined.

(** X20: [showMessage], also when reached by a middle click on the tray
    icon, asks the tray icon for exactly one notification that carries
    the title and the body currently in the form and the message icon
    of the type box's current entry, with a timeout of 1000 times the
    duration, hence between 2000 and 15000 milliseconds; nothing else
    of the form changes. *)
Theorem showMessage_sends_form_contents (f : Form) :
  form_inv f →
  ∃ micon,
    QComboBox.itemData (typeComboBox f) (QComboBox.currentIndex (typeComboBox f))
    = Some micon
    ∧ showMessage f =
      Some (mkForm (iconComboBox f) (typeComboBox f) (durationSpinBox f)
              (titleEdit f) (bodyEdit f) (trayIcon_icon f) (windowIcon f)
              (notifications f ++
                 [mkNotification (titleEdit f) (bodyEdit f) micon
                    (QSpinBox.value (durationSpinBox f) * 1000)]))
    ∧ iconActivated MiddleClick f = showMessage f
    ∧ 2000 ≤ QSpinBox.value (durationSpinBox f) * 1000 ≤ 15000.
Proof.
  intros Hinv. destruct (showMessage_inv f Hinv) as (micon & Hdata & Hshow).
  exists micon. split_and!; try done.
  - destruct Hinv as (_ & _ & _ & _ & _ & _ & _ & _ & Hv). lia.
  - destruct Hinv as (_ & _ & _ & _ & _ & _ & _ & _ & Hv). lia.
Qed.

Lemma showMessage_sends_form_contents_witness :
  form_inv Form_init
  ∧ ∃ micon,
      QComboBox.itemData (typeComboBox Form_init)
        (QComboBox.currentIndex (typeComboBox Form_init)) = Some micon.
Proof.
  assert (Hinit : form_inv Form_init)
    by (apply (bool_decide_unpack _); by vm_compute).
  split; [exact Hinit|].
  destruct (showMessage_sends_form_contents Form_init Hinit)
    as (micon & Hdata & _).
  by exists micon.
Defined.
